(** * Ariye rentals: booking ledger, review aggregation and client derivations

    A shallow embedding of the rules the repository states in its SQL
    migration (tables, CHECK / UNIQUE / FOREIGN KEY constraints,
    row-level-security policies, the triggers [handle_new_user] and
    [update_vehicle_rating]) and of the derivations its screens compute in
    TypeScript ([signIn], [getCurrentUser], [fetchBookings], [isUpcoming],
    [filteredBookings], the revenue total of [fetchDashboardStats]).

    The schema is the one of the later migration, which drops the tables of
    the earlier one and recreates them with the CHECK constraints, the
    [reviews] table and the rating trigger.

    Conventions.
    - [uuid] values are opaque identifiers, modelled as [nat];
      [gen_random_uuid()] and [now()] are inputs of the operations.
    - [timestamptz] values are integers (an instant on the time line).
    - [numeric] values and JavaScript numbers are exact rationals [Q];
      the finite scale PostgreSQL keeps for [AVG] and the rounding of
      IEEE doubles are idealised away.
    - A statement that raises an error aborts: the state is unchanged.
    - The sub-select on [profiles] inside a policy is evaluated on the
      table contents.
    - Errors are the conditions PostgreSQL reports.  The error kinds of the
      specification name them by cause: a row-level-security violation on
      [reviews] is its ReviewNotAllowed, the unique key on (user_id,
      booking_id) its DuplicateReview, the CHECK [valid_dates] its
      InvalidDateRange, the foreign key on [bookings.vehicle_id] its
      VehicleUnavailable. *)

From Stdlib Require Import List String ZArith QArith Bool Lia Permutation Sorted.
Import ListNotations.
Local Open Scope string_scope.
Local Open Scope list_scope.
Local Open Scope nat_scope.

Definition uuid := nat.
Definition timestamptz := Z.
Bind Scope Z_scope with timestamptz.

(** ** Errors raised by the database *)

Inductive pg_error : Type :=
| RlsViolation (table : string)
    (* new row violates row-level security policy for table *)
| NotNullViolation (column : string)
| CheckViolation (constraint : string)
| UniqueViolation (constraint : string)
| ForeignKeyViolation (constraint : string).

Inductive result (A : Type) : Type :=
| Ok (a : A)
| Err (e : pg_error).
Arguments Ok {A} a.
Arguments Err {A} e.

Definition bind {A B : Type} (m : result A) (k : A -> result B) : result B :=
  match m with
  | Ok a => k a
  | Err e => Err e
  end.

Definition check (cond : bool) (e : pg_error) : result unit :=
  if cond then Ok tt else Err e.

Declare Scope db_scope.
Delimit Scope db_scope with db.
Notation "x <- m ;; k" := (bind m (fun x => k))
  (at level 61, m at next level, right associativity) : db_scope.
Notation "'ensure' c 'else' e ;; k" := (bind (check c e) (fun _ => k))
  (at level 61, c at next level, e at next level, right associativity) : db_scope.

(** ** Column values *)

(** SQL three-valued [col = true] used as a row filter: NULL does not pass. *)
Definition is_true (b : option bool) : bool :=
  match b with
  | Some true => true
  | _ => false
  end.

(** [COALESCE(a, b)]. *)
Definition COALESCE {A : Type} (a : option A) (b : A) : A :=
  match a with
  | Some x => x
  | None => b
  end.

Definition COALESCE2 {A : Type} (a b : option A) : option A :=
  match a with
  | Some x => Some x
  | None => b
  end.

Definition sum_Z (l : list Z) : Z := fold_right Z.add 0%Z l.

(** [AVG(x::numeric)]: NULL over no rows, otherwise sum over count. *)
Definition AVG (l : list Z) : option Q :=
  match l with
  | [] => None
  | _ :: _ => Some (inject_Z (sum_Z l) / inject_Z (Z.of_nat (List.length l)))%Q
  end.

(** [COUNT( * )]. *)
Definition COUNT {A : Type} (l : list A) : Z := Z.of_nat (List.length l).

(** ** Tables *)

Module AuthUser.
(** A row of [auth.users], as far as the migration and the client read it. *)
Record t : Type := mk
  { id : uuid;
    email : option string;
    meta_full_name : option string;   (* raw_user_meta_data->>'full_name' *)
    meta_avatar_url : option string }.
End AuthUser.

Module Profile.
Record t : Type := mk
  { id : uuid;
    email : string;
    full_name : option string;
    avatar_url : option string;
    is_admin : option bool }.         (* boolean DEFAULT false, nullable *)
End Profile.

Module Vehicle.
(** [vehicles]; the descriptive columns other than [name] play no part in
    any rule and are left out. *)
Record t : Type := mk
  { id : uuid;
    name : string;
    available : option bool;          (* boolean DEFAULT true, nullable *)
    rating : Q;
    total_reviews : Z }.
End Vehicle.

Module Booking.
Record t : Type := mk
  { id : uuid;
    user_id : uuid;
    vehicle_id : uuid;
    start_date : timestamptz;
    end_date : timestamptz;
    pickup_location : string;
    total_price : Q;
    status : string;
    payment_status : string;
    fuel_level_pickup : option Z;
    fuel_level_dropoff : option Z;
    created_at : timestamptz }.
End Booking.

Module Favorite.
Record t : Type := mk
  { id : uuid;
    user_id : uuid;
    vehicle_id : uuid;
    created_at : timestamptz }.
End Favorite.

Module Review.
Record t : Type := mk
  { id : uuid;
    user_id : uuid;
    vehicle_id : uuid;
    booking_id : uuid;
    rating : Z;
    comment : option string;
    created_at : timestamptz }.
End Review.

Record Db : Type := mkDb
  { users : list AuthUser.t;
    profiles : list Profile.t;
    vehicles : list Vehicle.t;
    bookings : list Booking.t;
    favorites : list Favorite.t;
    reviews : list Review.t }.

Definition set_vehicles (vs : list Vehicle.t) (s : Db) : Db :=
  mkDb (users s) (profiles s) vs (bookings s) (favorites s) (reviews s).
Definition set_bookings (bs : list Booking.t) (s : Db) : Db :=
  mkDb (users s) (profiles s) (vehicles s) bs (favorites s) (reviews s).
Definition set_favorites (fs : list Favorite.t) (s : Db) : Db :=
  mkDb (users s) (profiles s) (vehicles s) (bookings s) fs (reviews s).
Definition set_reviews (rs : list Review.t) (s : Db) : Db :=
  mkDb (users s) (profiles s) (vehicles s) (bookings s) (favorites s) rs.
Definition set_profiles (ps : list Profile.t) (s : Db) : Db :=
  mkDb (users s) ps (vehicles s) (bookings s) (favorites s) (reviews s).
Definition set_users (us : list AuthUser.t) (s : Db) : Db :=
  mkDb us (profiles s) (vehicles s) (bookings s) (favorites s) (reviews s).

(** ** Callers *)

(** The policies are declared [TO authenticated]; the service role (used by
    migrations and by cascades) is not subject to them. *)
Inductive role : Type :=
| authenticated (uid : uuid)
| service_role.

(** ** The admin identity baked into the system *)

Definition ADMIN_EMAIL : string := "sandewilliam594@gmail.com".

(** [EXISTS (SELECT 1 FROM profiles WHERE profiles.id = auth.uid()
     AND profiles.is_admin = true)]. *)
Definition profile_is_admin (uid : uuid) (s : Db) : bool :=
  existsb (fun p => Nat.eqb (Profile.id p) uid && is_true (Profile.is_admin p))
          (profiles s).

Definition exists_user (uid : uuid) (s : Db) : bool :=
  existsb (fun u => Nat.eqb (AuthUser.id u) uid) (users s).
Definition exists_vehicle (vid : uuid) (s : Db) : bool :=
  existsb (fun v => Nat.eqb (Vehicle.id v) vid) (vehicles s).
Definition exists_booking (bid : uuid) (s : Db) : bool :=
  existsb (fun b => Nat.eqb (Booking.id b) bid) (bookings s).

(** ** Reviews and the rating trigger *)

(** The rows [SELECT ... FROM reviews WHERE vehicle_id = vid] ranges over. *)
Definition reviews_of (vid : uuid) (s : Db) : list Review.t :=
  filter (fun r => Nat.eqb (Review.vehicle_id r) vid) (reviews s).

(** [CHECK (rating >= 0 AND rating <= 5)] on [vehicles]. *)
Definition vehicles_rating_check (q : Q) : bool :=
  Qle_bool 0%Q q && Qle_bool q 5%Q.

(** [update_vehicle_rating()], fired AFTER INSERT OR UPDATE OR DELETE on
    [reviews] FOR EACH ROW.  [NEW] is NULL on DELETE and [OLD] is NULL on
    INSERT.  The [UPDATE vehicles] it runs is subject to the CHECK on
    [vehicles.rating]. *)
Definition update_vehicle_rating (NEW OLD : option Review.t) (s : Db) : result Db :=
  match COALESCE2 (option_map Review.vehicle_id NEW)
                  (option_map Review.vehicle_id OLD) with
  | None => Ok s
  | Some vid =>
      let new_rating := COALESCE (AVG (map Review.rating (reviews_of vid s))) 0%Q in
      let new_total := COUNT (reviews_of vid s) in
      if existsb (fun v => Nat.eqb (Vehicle.id v) vid) (vehicles s)
         && negb (vehicles_rating_check new_rating)
      then Err (CheckViolation "vehicles_rating_check")
      else Ok (set_vehicles
                 (map (fun v =>
                         if Nat.eqb (Vehicle.id v) vid
                         then Vehicle.mk (Vehicle.id v) (Vehicle.name v)
                                (Vehicle.available v) new_rating new_total
                         else v)
                      (vehicles s))
                 s)
  end.

(** "Users can create reviews for their bookings": FOR INSERT WITH CHECK. *)
Definition policy_create_reviews (uid : uuid) (new : Review.t) (s : Db) : bool :=
  Nat.eqb uid (Review.user_id new)
  && existsb (fun b => Nat.eqb (Booking.id b) (Review.booking_id new)
                       && Nat.eqb (Booking.user_id b) uid
                       && String.eqb (Booking.status b) "completed")
             (bookings s).

(** "Users can update own reviews": FOR UPDATE USING; with no WITH CHECK
    clause the same expression is applied to the new row. *)
Definition policy_update_reviews (uid : uuid) (r : Review.t) : bool :=
  Nat.eqb uid (Review.user_id r).

(** The policy of UPDATE on [reviews] as it applies to a caller. *)
Definition reviews_using (caller : role) (old : Review.t) : bool :=
  match caller with
  | authenticated uid => policy_update_reviews uid old
  | service_role => true
  end.

(** [CHECK (rating >= 1 AND rating <= 5)] on [reviews]. *)
Definition reviews_rating_check (r : Review.t) : bool :=
  (1 <=? Review.rating r)%Z && (Review.rating r <=? 5)%Z.

Definition review_key_taken (uid bid : uuid) (rs : list Review.t) : bool :=
  existsb (fun r => Nat.eqb (Review.user_id r) uid
                    && Nat.eqb (Review.booking_id r) bid) rs.

Local Open Scope db_scope.

(** The table-level constraints on a row entering [reviews], given the
    other rows [others] of the table. *)
Definition reviews_constraints (new : Review.t) (others : list Review.t)
    (s : Db) : result unit :=
  ensure reviews_rating_check new
    else CheckViolation "reviews_rating_check" ;;
  ensure negb (existsb (fun r => Nat.eqb (Review.id r) (Review.id new)) others)
    else UniqueViolation "reviews_pkey" ;;
  ensure negb (review_key_taken (Review.user_id new) (Review.booking_id new) others)
    else UniqueViolation "reviews_user_id_booking_id_key" ;;
  ensure exists_user (Review.user_id new) s
    else ForeignKeyViolation "reviews_user_id_fkey" ;;
  ensure exists_vehicle (Review.vehicle_id new) s
    else ForeignKeyViolation "reviews_vehicle_id_fkey" ;;
  ensure exists_booking (Review.booking_id new) s
    else ForeignKeyViolation "reviews_booking_id_fkey" ;;
  Ok tt.

(** [INSERT INTO reviews VALUES (new)]. *)
Definition insert_review (caller : role) (new : Review.t) (s : Db) : result Db :=
  ensure match caller with
         | authenticated uid => policy_create_reviews uid new s
         | service_role => true
         end
    else RlsViolation "reviews" ;;
  _ <- reviews_constraints new (reviews s) s ;;
  update_vehicle_rating (Some new) None (set_reviews (reviews s ++ [new]) s).

Definition find_review (rid : uuid) (s : Db) : option Review.t :=
  find (fun r => Nat.eqb (Review.id r) rid) (reviews s).

Definition without_review (rid : uuid) (rs : list Review.t) : list Review.t :=
  filter (fun r => negb (Nat.eqb (Review.id r) rid)) rs.

(** [UPDATE reviews SET (user_id, vehicle_id, booking_id, rating, comment)
    = (...) WHERE id = rid].  [new] carries the column values after the
    SET; its [id] and [created_at] are those of the stored row.  A row the
    caller's USING clause hides is not updated and nothing is raised. *)
Definition update_review (caller : role) (rid : uuid) (new : Review.t) (s : Db)
    : result Db :=
  match find_review rid s with
  | None => Ok s
  | Some old =>
      let new := Review.mk rid (Review.user_id new) (Review.vehicle_id new)
                   (Review.booking_id new) (Review.rating new)
                   (Review.comment new) (Review.created_at old) in
      if negb (reviews_using caller old) then Ok s else
      ensure reviews_using caller new else RlsViolation "reviews" ;;
      _ <- reviews_constraints new (without_review rid (reviews s)) s ;;
      update_vehicle_rating (Some new) (Some old)
        (set_reviews (map (fun r => if Nat.eqb (Review.id r) rid then new else r)
                          (reviews s)) s)
  end.

(** [DELETE FROM reviews WHERE id = rid].  No policy grants DELETE to
    [authenticated], so for that role no row qualifies; the service role
    and the ON DELETE CASCADE paths remove the row and fire the trigger. *)
Definition delete_review (caller : role) (rid : uuid) (s : Db) : result Db :=
  match caller, find_review rid s with
  | service_role, Some old =>
      update_vehicle_rating None (Some old)
        (set_reviews (without_review rid (reviews s)) s)
  | _, _ => Ok s
  end.

(** ** Bookings *)

Module NewBooking.
(** The column list of an [INSERT INTO bookings].  [None] for [status] or
    [payment_status] means the column is omitted, so its DEFAULT applies. *)
Record t : Type := mk
  { user_id : uuid;
    vehicle_id : uuid;
    start_date : timestamptz;
    end_date : timestamptz;
    pickup_location : string;
    total_price : Q;
    status : option string;
    payment_status : option string;
    fuel_level_pickup : option Z;
    fuel_level_dropoff : option Z }.
End NewBooking.

(** The stored row: [id DEFAULT gen_random_uuid()], [status DEFAULT
    'pending'], [payment_status DEFAULT 'pending'], [created_at DEFAULT
    now()]. *)
Definition booking_row (id : uuid) (now : timestamptz) (nb : NewBooking.t)
    : Booking.t :=
  Booking.mk id (NewBooking.user_id nb) (NewBooking.vehicle_id nb)
    (NewBooking.start_date nb) (NewBooking.end_date nb)
    (NewBooking.pickup_location nb) (NewBooking.total_price nb)
    (COALESCE (NewBooking.status nb) "pending")
    (COALESCE (NewBooking.payment_status nb) "pending")
    (NewBooking.fuel_level_pickup nb) (NewBooking.fuel_level_dropoff nb) now.

Definition string_in (x : string) (l : list string) : bool :=
  existsb (String.eqb x) l.

(** [CHECK (fuel_level >= 0 AND fuel_level <= 100)]; NULL passes. *)
Definition fuel_level_check (f : option Z) : bool :=
  match f with
  | None => true
  | Some x => (0 <=? x)%Z && (x <=? 100)%Z
  end.

Definition bookings_status_check (b : Booking.t) : bool :=
  string_in (Booking.status b)
    ["pending"; "confirmed"; "active"; "completed"; "cancelled"].

Definition bookings_payment_status_check (b : Booking.t) : bool :=
  string_in (Booking.payment_status b)
    ["pending"; "completed"; "failed"; "refunded"].

(** [CONSTRAINT valid_dates CHECK (end_date > start_date)]. *)
Definition valid_dates (b : Booking.t) : bool :=
  (Booking.start_date b <? Booking.end_date b)%Z.

(** "Users can create bookings" (INSERT, WITH CHECK), "Users can read own
    bookings" (SELECT, USING) and "Users can update own bookings" (UPDATE,
    USING) share one expression: [auth.uid() = user_id]. *)
Definition policy_own_booking (uid : uuid) (b : Booking.t) : bool :=
  Nat.eqb uid (Booking.user_id b).

(** "Admins can read all bookings" and "Admins can update all bookings". *)
Definition policy_admin_bookings (uid : uuid) (s : Db) : bool :=
  profile_is_admin uid s.

(** CHECK constraints are evaluated in the order of their names, then the
    unique index, then the foreign keys. *)
Definition bookings_constraints (new : Booking.t) (others : list Booking.t)
    (s : Db) : result unit :=
  ensure fuel_level_check (Booking.fuel_level_dropoff new)
    else CheckViolation "bookings_fuel_level_dropoff_check" ;;
  ensure fuel_level_check (Booking.fuel_level_pickup new)
    else CheckViolation "bookings_fuel_level_pickup_check" ;;
  ensure bookings_payment_status_check new
    else CheckViolation "bookings_payment_status_check" ;;
  ensure bookings_status_check new
    else CheckViolation "bookings_status_check" ;;
  ensure valid_dates new
    else CheckViolation "valid_dates" ;;
  ensure negb (existsb (fun b => Nat.eqb (Booking.id b) (Booking.id new)) others)
    else UniqueViolation "bookings_pkey" ;;
  ensure exists_user (Booking.user_id new) s
    else ForeignKeyViolation "bookings_user_id_fkey" ;;
  ensure exists_vehicle (Booking.vehicle_id new) s
    else ForeignKeyViolation "bookings_vehicle_id_fkey" ;;
  Ok tt.

(** [INSERT INTO bookings (...) VALUES (...) RETURNING *]. *)
Definition insert_booking (caller : role) (id : uuid) (now : timestamptz)
    (nb : NewBooking.t) (s : Db) : result (Booking.t * Db) :=
  let new := booking_row id now nb in
  ensure match caller with
         | authenticated uid => policy_own_booking uid new
         | service_role => true
         end
    else RlsViolation "bookings" ;;
  _ <- bookings_constraints new (bookings s) s ;;
  Ok (new, set_bookings (bookings s ++ [new]) s).

(** Modelled from the spec: the screen that issues the INSERT is not among
    the sources, so the call takes the argument list of the interface
    [createBooking(requester, vehicleId, startDate, endDate, pickupLocation,
    totalPrice)]: the requester inserts a row naming itself as owner and
    leaves every other column to its DEFAULT.  All it does is
    [insert_booking]. *)
Definition createBooking (requester vehicleId : uuid)
    (startDate endDate : timestamptz) (pickupLocation : string)
    (totalPrice : Q) (id : uuid) (now : timestamptz) (s : Db)
    : result (Booking.t * Db) :=
  insert_booking (authenticated requester) id now
    (NewBooking.mk requester vehicleId startDate endDate pickupLocation
       totalPrice None None None None) s.


Definition find_booking (bid : uuid) (s : Db) : option Booking.t :=
  find (fun b => Nat.eqb (Booking.id b) bid) (bookings s).

Definition without_booking (bid : uuid) (bs : list Booking.t) : list Booking.t :=
  filter (fun b => negb (Nat.eqb (Booking.id b) bid)) bs.

(** [UPDATE bookings SET ... WHERE id = bid].  [new] carries the values of
    the settable columns after the SET.  The two UPDATE policies are
    permissive, so either admits the old row (USING) and the new row (the
    same expressions, there being no WITH CHECK). *)
Definition update_booking (caller : role) (bid : uuid) (new : Booking.t) (s : Db)
    : result Db :=
  match find_booking bid s with
  | None => Ok s
  | Some old =>
      let new := Booking.mk bid (Booking.user_id new) (Booking.vehicle_id new)
                   (Booking.start_date new) (Booking.end_date new)
                   (Booking.pickup_location new) (Booking.total_price new)
                   (Booking.status new) (Booking.payment_status new)
                   (Booking.fuel_level_pickup new)
                   (Booking.fuel_level_dropoff new) (Booking.created_at old) in
      let admits b := match caller with
                      | authenticated uid =>
                          policy_own_booking uid b || policy_admin_bookings uid s
                      | service_role => true
                      end in
      if negb (admits old) then Ok s else
      ensure admits new else RlsViolation "bookings" ;;
      _ <- bookings_constraints new (without_booking bid (bookings s)) s ;;
      Ok (set_bookings (map (fun b => if Nat.eqb (Booking.id b) bid then new else b)
                            (bookings s)) s)
  end.


(** ** Favorites *)

(** "Users can manage own favorites": FOR ALL, USING and WITH CHECK. *)
Definition policy_own_favorite (uid : uuid) (f : Favorite.t) : bool :=
  Nat.eqb uid (Favorite.user_id f).

Definition favorite_pair_taken (uid vid : uuid) (fs : list Favorite.t) : bool :=
  existsb (fun f => Nat.eqb (Favorite.user_id f) uid
                    && Nat.eqb (Favorite.vehicle_id f) vid) fs.

Definition favorites_constraints (new : Favorite.t) (others : list Favorite.t)
    (s : Db) : result unit :=
  ensure negb (existsb (fun f => Nat.eqb (Favorite.id f) (Favorite.id new)) others)
    else UniqueViolation "favorites_pkey" ;;
  ensure negb (favorite_pair_taken (Favorite.user_id new)
                 (Favorite.vehicle_id new) others)
    else UniqueViolation "favorites_user_id_vehicle_id_key" ;;
  ensure exists_user (Favorite.user_id new) s
    else ForeignKeyViolation "favorites_user_id_fkey" ;;
  ensure exists_vehicle (Favorite.vehicle_id new) s
    else ForeignKeyViolation "favorites_vehicle_id_fkey" ;;
  Ok tt.

(** [INSERT INTO favorites VALUES (new)]. *)
Definition insert_favorite (caller : role) (new : Favorite.t) (s : Db) : result Db :=
  ensure match caller with
         | authenticated uid => policy_own_favorite uid new
         | service_role => true
         end
    else RlsViolation "favorites" ;;
  _ <- favorites_constraints new (favorites s) s ;;
  Ok (set_favorites (favorites s ++ [new]) s).

Definition find_favorite (fid : uuid) (s : Db) : option Favorite.t :=
  find (fun f => Nat.eqb (Favorite.id f) fid) (favorites s).

Definition without_favorite (fid : uuid) (fs : list Favorite.t) : list Favorite.t :=
  filter (fun f => negb (Nat.eqb (Favorite.id f) fid)) fs.

(** [UPDATE favorites SET (user_id, vehicle_id) = (...) WHERE id = fid]. *)
Definition update_favorite (caller : role) (fid : uuid) (new : Favorite.t) (s : Db)
    : result Db :=
  match find_favorite fid s with
  | None => Ok s
  | Some old =>
      let new := Favorite.mk fid (Favorite.user_id new) (Favorite.vehicle_id new)
                   (Favorite.created_at old) in
      let admits f := match caller with
                      | authenticated uid => policy_own_favorite uid f
                      | service_role => true
                      end in
      if negb (admits old) then Ok s else
      ensure admits new else RlsViolation "favorites" ;;
      _ <- favorites_constraints new (without_favorite fid (favorites s)) s ;;
      Ok (set_favorites
            (map (fun f => if Nat.eqb (Favorite.id f) fid then new else f)
                 (favorites s)) s)
  end.

(** [supabase.from('favorites').delete().eq('id', favoriteId)] of
    [removeFavorite]: rows the USING clause hides are left alone. *)
Definition delete_favorite (caller : role) (fid : uuid) (s : Db) : result Db :=
  match find_favorite fid s with
  | None => Ok s
  | Some old =>
      if match caller with
         | authenticated uid => policy_own_favorite uid old
         | service_role => true
         end
      then Ok (set_favorites (without_favorite fid (favorites s)) s)
      else Ok s
  end.

(** ** Vehicles *)

(** "Admins can manage vehicles" (FOR ALL) is the only policy that grants
    UPDATE on [vehicles]. *)
Definition policy_admin_vehicles (uid : uuid) (s : Db) : bool :=
  profile_is_admin uid s.

(** [UPDATE vehicles SET available = a WHERE id = vid]. *)
Definition update_vehicle_available (caller : role) (vid : uuid)
    (a : option bool) (s : Db) : result Db :=
  if match caller with
     | authenticated uid => policy_admin_vehicles uid s
     | service_role => true
     end
  then Ok (set_vehicles
             (map (fun v =>
                     if Nat.eqb (Vehicle.id v) vid
                     then Vehicle.mk (Vehicle.id v) (Vehicle.name v) a
                            (Vehicle.rating v) (Vehicle.total_reviews v)
                     else v)
                  (vehicles s)) s)
  else Ok s.

(** ** Accounts and profiles *)

(** [handle_new_user()], fired AFTER INSERT ON auth.users FOR EACH ROW.
    It is SECURITY DEFINER, so no policy applies to its INSERT. *)
Definition handle_new_user (NEW : AuthUser.t) (s : Db) : result Db :=
  match AuthUser.email NEW with
  | None => Err (NotNullViolation "email")
  | Some e =>
      ensure negb (existsb (fun p => Nat.eqb (Profile.id p) (AuthUser.id NEW))
                           (profiles s))
        else UniqueViolation "profiles_pkey" ;;
      ensure negb (existsb (fun p => String.eqb (Profile.email p) e) (profiles s))
        else UniqueViolation "profiles_email_key" ;;
      Ok (set_profiles
            (profiles s ++
             [Profile.mk (AuthUser.id NEW) e
                (Some (COALESCE (AuthUser.meta_full_name NEW) ""))
                None
                (Some (if String.eqb e ADMIN_EMAIL then true else false))])
            s)
  end.

(** A new account: the auth provider inserts the row of [auth.users]; the
    trigger creates the profile in the same transaction. *)
Definition sign_up (u : AuthUser.t) (s : Db) : result Db :=
  ensure negb (exists_user (AuthUser.id u) s)
    else UniqueViolation "users_pkey" ;;
  handle_new_user u (set_users (users s ++ [u]) s).

(** ** The migrated database and what can follow it *)

(** The six sample vehicles of the migration, with the ratings and review
    counts it writes.  Their ids come from [gen_random_uuid()]; 1 to 6
    stand for them. *)
Definition sample_vehicles : list Vehicle.t :=
  [ Vehicle.mk 1 "Toyota Camry 2024" (Some true) (45 # 10)%Q 23%Z;
    Vehicle.mk 2 "Honda CR-V 2023" (Some true) (47 # 10)%Q 31%Z;
    Vehicle.mk 3 "BMW 3 Series 2024" (Some true) (48 # 10)%Q 18%Z;
    Vehicle.mk 4 "Ford F-150 2023" (Some true) (46 # 10)%Q 27%Z;
    Vehicle.mk 5 "Tesla Model 3 2024" (Some true) (49 # 10)%Q 42%Z;
    Vehicle.mk 6 "Jeep Wrangler 2023" (Some true) (44 # 10)%Q 19%Z ].

(** The state the migration leaves: the dependent tables were dropped and
    recreated empty ([profiles] too); the accounts are whatever the auth
    provider holds. *)
Definition migrated (us : list AuthUser.t) : Db :=
  mkDb us [] sample_vehicles [] [] [].

(** The statements followed here.  Deleting an account or a vehicle (which
    only removes dependent rows through ON DELETE CASCADE) and the other
    writes open to admins on [vehicles] are not among them. *)
Inductive statement : Type :=
| SignUp (u : AuthUser.t)
| InsertBooking (id : uuid) (now : timestamptz) (nb : NewBooking.t)
| UpdateBooking (bid : uuid) (new : Booking.t)
| InsertReview (new : Review.t)
| UpdateReview (rid : uuid) (new : Review.t)
| DeleteReview (rid : uuid)
| InsertFavorite (new : Favorite.t)
| UpdateFavorite (fid : uuid) (new : Favorite.t)
| DeleteFavorite (fid : uuid)
| UpdateVehicleAvailable (vid : uuid) (a : option bool).

Definition exec (caller : role) (st : statement) (s : Db) : result Db :=
  match st with
  | SignUp u => sign_up u s
  | InsertBooking id now nb =>
      r <- insert_booking caller id now nb s ;; Ok (snd r)
  | UpdateBooking bid new => update_booking caller bid new s
  | InsertReview new => insert_review caller new s
  | UpdateReview rid new => update_review caller rid new s
  | DeleteReview rid => delete_review caller rid s
  | InsertFavorite new => insert_favorite caller new s
  | UpdateFavorite fid new => update_favorite caller fid new s
  | DeleteFavorite fid => delete_favorite caller fid s
  | UpdateVehicleAvailable vid a => update_vehicle_available caller vid a s
  end.

(** A failed statement is rolled back. *)
Definition run1 (s : Db) (c : role * statement) : Db :=
  match exec (fst c) (snd c) s with
  | Ok s' => s'
  | Err _ => s
  end.

Definition run (s : Db) (cs : list (role * statement)) : Db :=
  fold_left run1 cs s.

Inductive reachable : Db -> Prop :=
| reach_migrated us : reachable (migrated us)
| reach_step s caller st s' :
    reachable s -> exec caller st s = Ok s' -> reachable s'.

(** ** lib/auth.ts *)

(** JavaScript [a || b] on values that may be absent. *)
Definition js_or_string (a b : option string) : option string :=
  match a with
  | Some x => if String.eqb x "" then b else Some x
  | None => b
  end.

(** [x || false] on a boolean that may be null or undefined. *)
Definition js_or_false (a : option bool) : bool :=
  match a with
  | Some true => true
  | _ => false
  end.


(** The rows a [SELECT ... FROM profiles] may see: "Users can read own
    profile" or "Admins can read all profiles". *)
Definition select_profiles (caller : role) (s : Db) : list Profile.t :=
  match caller with
  | authenticated uid =>
      filter (fun p => Nat.eqb uid (Profile.id p) || profile_is_admin uid s)
             (profiles s)
  | service_role => profiles s
  end.

(** [.single()]: the row when exactly one qualifies, otherwise no data. *)
Definition single {A : Type} (rows : list A) : option A :=
  match rows with
  | [x] => Some x
  | _ => None
  end.

(** [supabase.from('profiles').select(...).eq('id', id).single()], issued
    with the session of [uid]. *)
Definition profile_by_id (uid : uuid) (s : Db) : option Profile.t :=
  single (filter (fun p => Nat.eqb (Profile.id p) uid)
                 (select_profiles (authenticated uid) s)).

Module Auth.

Record User : Type := mkUser
  { id : uuid;
    email : option string;
    full_name : option string;
    avatar_url : option string;
    is_admin : bool }.

(** [getCurrentUser]; [getUser] is what [supabase.auth.getUser()] yields.
    A thrown error is caught and reported as [null], like no session. *)
Definition getCurrentUser (getUser : option AuthUser.t) (s : Db) : option User :=
  match getUser with
  | None => None
  | Some user =>
      if match AuthUser.email user with
         | Some e => String.eqb e ADMIN_EMAIL
         | None => false
         end
      then Some (mkUser (AuthUser.id user) (AuthUser.email user)
                   (AuthUser.meta_full_name user)
                   (AuthUser.meta_avatar_url user) true)
      else
        let profile := profile_by_id (AuthUser.id user) s in
        Some (mkUser (AuthUser.id user) (AuthUser.email user)
                (js_or_string
                   (match profile with Some p => Profile.full_name p | None => None end)
                   (AuthUser.meta_full_name user))
                (js_or_string
                   (match profile with Some p => Profile.avatar_url p | None => None end)
                   (AuthUser.meta_avatar_url user))
                (js_or_false
                   (match profile with Some p => Profile.is_admin p | None => None end)))
  end.

(** [signIn]; [signInWithPassword] is the auth provider: an error (which
    [signIn] rethrows, [inl]) or the data it returns, whose [user] may be
    null. *)
Definition signIn (email password : string)
    (signInWithPassword : string -> string -> string + option AuthUser.t)
    (s : Db) : string + (option AuthUser.t * bool) :=
  match signInWithPassword email password with
  | inl error => inl error
  | inr user =>
      if String.eqb email ADMIN_EMAIL then inr (user, true)
      else
        let profile := match user with
                       | Some u => profile_by_id (AuthUser.id u) s
                       | None => None
                       end in
        inr (user,
             js_or_false
               (match profile with Some p => Profile.is_admin p | None => None end))
  end.

End Auth.

(** ** app/(tabs)/bookings: the bookings screen *)




Module BookingsScreen.

(** The screen's [Booking]: the columns of the row and the embedded
    [vehicles (...)] object, null when the vehicle is not visible to the
    caller.  The text of a timestamp and [new Date] applied to it are
    taken together as the instant. *)
Record Booking : Type := mkBooking
  { columns : Booking.t;
    vehicles : option Vehicle.t }.

Inductive Tab : Type := upcoming | past.


(** [isUpcoming], with [now] the value of [new Date()]. *)
Definition isUpcoming (booking : Booking) (now : timestamptz) : bool :=
  (now <? Booking.start_date (columns booking))%Z
  || String.eqb (Booking.status (columns booking)) "active".

Definition filteredBookings (activeTab : Tab) (bookings : list Booking)
    (now : timestamptz) : list Booking :=
  filter (fun booking =>
            match activeTab with
            | upcoming => isUpcoming booking now
            | past => negb (isUpcoming booking now)
            end)
         bookings.

End BookingsScreen.

(** ** app/admin/index.tsx: the dashboard *)

Module AdminDashboard.



End AdminDashboard.

(** ** Further operations of the migration *)

(** [ORDER BY key DESC], by insertion: [lt x b] says that [x] sorts after
    [b]. *)
Section OrderBy.
Context {A : Type}.
Variable lt : A -> A -> bool.


End OrderBy.

(** "Users can read own profile", "Users can insert own profile" and "Users
    can update own profile" share one expression: [auth.uid() = id]. *)
Definition policy_own_profile (uid : uuid) (p : Profile.t) : bool :=
  Nat.eqb uid (Profile.id p).

Definition find_profile (pid : uuid) (s : Db) : option Profile.t :=
  find (fun p => Nat.eqb (Profile.id p) pid) (profiles s).

Definition without_profile (pid : uuid) (ps : list Profile.t) : list Profile.t :=
  filter (fun p => negb (Nat.eqb (Profile.id p) pid)) ps.

(** [UPDATE profiles SET (email, full_name, avatar_url, is_admin) = (...)
    WHERE id = pid].  The only UPDATE policy is "Users can update own
    profile"; its USING expression also checks the new row.  The unique key
    on [email] is the one constraint the new values can break. *)
Definition update_profile (caller : role) (pid : uuid) (new : Profile.t) (s : Db)
    : result Db :=
  match find_profile pid s with
  | None => Ok s
  | Some old =>
      let new := Profile.mk pid (Profile.email new) (Profile.full_name new)
                   (Profile.avatar_url new) (Profile.is_admin new) in
      let admits p := match caller with
                      | authenticated uid => policy_own_profile uid p
                      | service_role => true
                      end in
      if negb (admits old) then Ok s else
      ensure admits new else RlsViolation "profiles" ;;
      ensure negb (existsb (fun p => String.eqb (Profile.email p) (Profile.email new))
                           (without_profile pid (profiles s)))
        else UniqueViolation "profiles_email_key" ;;
      Ok (set_profiles
            (map (fun p => if Nat.eqb (Profile.id p) pid then new else p)
                 (profiles s)) s)
  end.


(** ** lib/auth.ts, continued *)

(** [signUp]; [signUpProvider] is [supabase.auth.signUp]: an error, which
    [signUp] rethrows, or the data, which it returns as they are. *)
Definition signUp {Data : Type} (email password fullName : string)
    (signUpProvider : string -> string -> string -> string + Data)
    : string + Data :=
  match signUpProvider email password fullName with
  | inl error => inl error
  | inr data => inr data
  end.

(** ** app/(tabs)/index.tsx: the home screen *)

Module HomeScreen.



(** [checkUser]: the value handed to [setUser], and whether the screen is
    replaced by [/admin]. *)
Definition checkUser (getUser : option AuthUser.t) (s : Db)
    : option Auth.User * bool :=
  let currentUser := Auth.getCurrentUser getUser s in
  (currentUser,
   match currentUser with
   | Some u => match Auth.email u with
               | Some e => String.eqb e ADMIN_EMAIL
               | None => false
               end
   | None => false
   end).

End HomeScreen.

(** ** app/(tabs)/bookings, continued *)

(** [getStatusColor] and [getStatusIcon] of the bookings screen. *)
Definition getStatusColor (status : string) : string :=
  if String.eqb status "confirmed" then "#28a745"
  else if String.eqb status "active" then "#007bff"
  else if String.eqb status "completed" then "#6c757d"
  else if String.eqb status "cancelled" then "#dc3545"
  else "#ffc107".

Definition getStatusIcon (status : string) : string :=
  if String.eqb status "confirmed" then "checkmark-circle-outline"
  else if String.eqb status "active" then "car-outline"
  else if String.eqb status "completed" then "checkmark-done-outline"
  else if String.eqb status "cancelled" then "close-circle-outline"
  else "time-outline".

(** ** app/(tabs)/favorites: the favorites screen *)

Module FavoritesScreen.

(** The screen's [Favorite]: the columns of the row and the embedded
    [vehicles ( * )] object. *)
Record Favorite : Type := mkFavorite
  { columns : Favorite.t;
    vehicles : option Vehicle.t }.




End FavoritesScreen.

(** ** app/admin/index.tsx, continued *)

Module Dashboard.




End Dashboard.

(** ** app/search: the search screen *)

(** [haystack.includes(needle)]. *)
Fixpoint includes (haystack needle : string) : bool :=
  prefix needle haystack
  || match haystack with
     | EmptyString => false
     | String _ rest => includes rest needle
     end.

Module SearchScreen.

(** The columns of the screen's [Vehicle] that [filterVehicles] reads. *)
Record Vehicle : Type := mkVehicle
  { id : uuid;
    name : string;
    type : string;
    brand : string;
    model : string;
    location : string }.

Section Filter.
(** [String.prototype.toLowerCase] and [String.prototype.trim] of the
    JavaScript runtime. *)
Variable toLowerCase : string -> string.
Variable trim : string -> string.

(** [filterVehicles]: the value handed to [setFilteredVehicles]. *)
Definition filterVehicles (vehicles : list Vehicle) (searchQuery selectedType : string)
    : list Vehicle :=
  let filtered := vehicles in
  let filtered :=
    if negb (String.eqb selectedType "All")
    then filter (fun vehicle => String.eqb (type vehicle) selectedType) filtered
    else filtered in
  let filtered :=
    if negb (String.eqb (trim searchQuery) "")
    then
      let query := toLowerCase searchQuery in
      filter (fun vehicle =>
                includes (toLowerCase (name vehicle)) query
                || includes (toLowerCase (brand vehicle)) query
                || includes (toLowerCase (model vehicle)) query
                || includes (toLowerCase (location vehicle)) query
                || includes (toLowerCase (type vehicle)) query)
             filtered
    else filtered in
  filtered.
End Filter.

End SearchScreen.

(** ** app/profile/pickup-locations *)

Module PickupLocations.

Record Location : Type := mkLocation
  { id : string;
    name : string;
    address : string;
    isDefault : bool }.

(** The three state variables of the screen. *)
Record State : Type := mkState
  { locations : list Location;
    newLocation : string * string;      (* name, address *)
    showAddForm : bool }.

Section Add.
Variable trim : string -> string.

(** [handleAddLocation]; [now] is [Date.now().toString()].  With a blank
    field it only raises the alert. *)
Definition handleAddLocation (now : string) (st : State) : State :=
  if String.eqb (trim (fst (newLocation st))) ""
     || String.eqb (trim (snd (newLocation st))) ""
  then st
  else mkState
         (locations st
          ++ [mkLocation now (fst (newLocation st)) (snd (newLocation st)) false])
         ("", "") false.
End Add.

Definition handleSetDefault (id' : string) (locs : list Location) : list Location :=
  map (fun loc => mkLocation (id loc) (name loc) (address loc)
                    (String.eqb (id loc) id'))
      locs.

(** [handleDeleteLocation]; [confirmed] tells whether 'Delete' was pressed in
    the alert. *)
Definition handleDeleteLocation (id' : string) (confirmed : bool)
    (locs : list Location) : list Location :=
  if confirmed
  then filter (fun loc => negb (String.eqb (id loc) id')) locs
  else locs.

End PickupLocations.

(** ** app/profile/payment-methods.tsx *)

Module PaymentMethods.

Record PaymentMethod : Type := mkMethod
  { id : string;
    type : string;                      (* 'card' | 'paypal' | 'apple_pay' *)
    name : string;
    details : string;
    isDefault : bool }.

Record NewCard : Type := mkCard
  { number : string;
    expiry : string;
    cvv : string;
    holder : string }.                  (* the field [name] of the form *)

Record State : Type := mkState
  { paymentMethods : list PaymentMethod;
    newCard : NewCard;
    showAddForm : bool }.

(** [s.slice(-4)]. *)
Definition slice_last4 (s : string) : string :=
  substring (String.length s - 4) 4 s.

(** [handleAddCard]; [now] is [Date.now().toString()]. *)
Definition handleAddCard (now : string) (st : State) : State :=
  if String.eqb (number (newCard st)) ""
     || String.eqb (expiry (newCard st)) ""
     || String.eqb (cvv (newCard st)) ""
     || String.eqb (holder (newCard st)) ""
  then st
  else mkState
         (paymentMethods st
          ++ [mkMethod now "card"
                ("Card ending in " ++ slice_last4 (number (newCard st)))%string
                ("Expires " ++ expiry (newCard st))%string
                false])
         (mkCard "" "" "" "") false.

Definition handleSetDefault (id' : string) (methods : list PaymentMethod)
    : list PaymentMethod :=
  map (fun method => mkMethod (id method) (type method) (name method)
                       (details method) (String.eqb (id method) id'))
      methods.

Definition handleDeleteMethod (id' : string) (confirmed : bool)
    (methods : list PaymentMethod) : list PaymentMethod :=
  if confirmed
  then filter (fun method => negb (String.eqb (id method) id')) methods
  else methods.

End PaymentMethods.

(** ** app/profile/help-support, notifications, settings *)

Module HelpSupport.

Record FAQ : Type := mkFAQ
  { id : string;
    question : string;
    answer : string;
    expanded : bool }.

Definition toggleFAQ (id' : string) (faqs : list FAQ) : list FAQ :=
  map (fun faq =>
         if String.eqb (id faq) id'
         then mkFAQ (id faq) (question faq) (answer faq) (negb (expanded faq))
         else mkFAQ (id faq) (question faq) (answer faq) false)
      faqs.

End HelpSupport.

Module Notifications.

Record NotificationSetting : Type := mkSetting
  { id : string;
    title : string;
    description : string;
    enabled : bool }.

Definition toggleSetting (id' : string) (settings : list NotificationSetting)
    : list NotificationSetting :=
  map (fun setting =>
         if String.eqb (id setting) id'
         then mkSetting (id setting) (title setting) (description setting)
                (negb (enabled setting))
         else setting)
      settings.

End Notifications.

Module Settings.

(** [value] is absent on the entries that are not toggles; [!undefined] is
    [true]. *)
Record Setting : Type := mkSetting
  { id : string;
    title : string;
    description : option string;
    type : string;                      (* 'toggle' | 'navigation' | 'action' *)
    value : option bool;
    icon : string }.

Definition js_not (v : option bool) : bool :=
  match v with
  | Some true => false
  | _ => true
  end.

Definition toggleSetting (id' : string) (settings : list Setting) : list Setting :=
  map (fun setting =>
         if String.eqb (id setting) id' && String.eqb (type setting) "toggle"
         then mkSetting (id setting) (title setting) (description setting)
                (type setting) (Some (js_not (value setting))) (icon setting)
         else setting)
      settings.

End Settings.

(** ** What the properties speak about *)

(** A policy as it applies to a caller: the service role is exempt. *)
Definition role_admits {R : Type} (caller : role) (policy : uuid -> R -> bool)
    (row : R) : bool :=
  match caller with
  | authenticated uid => policy uid row
  | service_role => true
  end.





Definition reviews_pkey (s : Db) : Prop := NoDup (map Review.id (reviews s)).

(** Review ids are unique and every rating lies in 1..5. *)
Definition reviews_inv (s : Db) : Prop :=
  reviews_pkey s /\ forall r, In r (reviews s) -> reviews_rating_check r = true.





Definition profiles_pkey (s : Db) : Prop := NoDup (map Profile.id (profiles s)).



(** At most one favorite per (user, vehicle), and per id. *)
Definition favorite_pair (f : Favorite.t) : uuid * uuid :=
  (Favorite.user_id f, Favorite.vehicle_id f).
Definition favorites_unique (s : Db) : Prop :=
  NoDup (map favorite_pair (favorites s)).
Definition favorites_pkey (s : Db) : Prop :=
  NoDup (map Favorite.id (favorites s)).

(** One review per (user, booking). *)
Definition review_key (r : Review.t) : uuid * uuid :=
  (Review.user_id r, Review.booking_id r).
Definition reviews_unique (s : Db) : Prop := NoDup (map review_key (reviews s)).

Definition bookings_pkey (s : Db) : Prop := NoDup (map Booking.id (bookings s)).

(** Every foreign key of the dependent tables points at a stored row. *)
Definition references_ok (s : Db) : Prop :=
  (forall b, In b (bookings s) ->
             exists_user (Booking.user_id b) s = true
             /\ exists_vehicle (Booking.vehicle_id b) s = true)
  /\ (forall f, In f (favorites s) ->
                exists_user (Favorite.user_id f) s = true
                /\ exists_vehicle (Favorite.vehicle_id f) s = true)
  /\ (forall r, In r (reviews s) ->
                exists_user (Review.user_id r) s = true
                /\ exists_vehicle (Review.vehicle_id r) s = true
                /\ exists_booking (Review.booking_id r) s = true).

(** One profile per account, one account per email. *)
Definition profiles_ok (s : Db) : Prop :=
  profiles_pkey s
  /\ NoDup (map Profile.email (profiles s))
  /\ forall p, In p (profiles s) -> exists_user (Profile.id p) s = true.

(** ** A small scenario *)

Definition alice : AuthUser.t :=
  AuthUser.mk 10 (Some "alice@example.com") (Some "Alice") None.
Definition bob : AuthUser.t :=
  AuthUser.mk 11 (Some "bob@example.com") (Some "Bob") None.
Definition root : AuthUser.t :=
  AuthUser.mk 12 (Some ADMIN_EMAIL) (Some "Admin User") None.

(** Alice's stay with the Camry (vehicle 1), already completed and paid. *)
Definition camry_stay : NewBooking.t :=
  NewBooking.mk 10 1 100%Z 200%Z "Downtown" 180%Q (Some "completed")
    (Some "completed") None None.

Definition camry_review : Review.t := Review.mk 1000 10 1 100 4%Z None 300%Z.

(** The migrated database, then Alice's completed booking. *)
Definition db_booked : Db :=
  run (migrated [alice; bob])
      [(authenticated 10, InsertBooking 100 50%Z camry_stay)].

(** ... then her review of the Camry. *)
Definition db_reviewed : Db :=
  run db_booked [(authenticated 10, InsertReview camry_review)].

(** ... then the same review re-pointed at the Honda (vehicle 2). *)
Definition db_moved : Db :=
  run db_reviewed
      [(authenticated 10,
        UpdateReview 1000 (Review.mk 1000 10 2 100 4%Z None 300%Z))].


(** The admin account exists and Bob has booked and paid the Honda. *)
Definition db_paid : Db :=
  run db_booked
      [(service_role, SignUp root);
       (authenticated 11,
        InsertBooking 101 60
          (NewBooking.mk 11 2 300 400 "Airport" (1305 # 10) None
             (Some "completed") None None));
       (authenticated 11,
        InsertBooking 102 70
          (NewBooking.mk 11 3 500 600 "City Center" 85 None None None None))].

(** Alice has marked the Camry as a favorite. *)
Definition camry_favorite : Favorite.t := Favorite.mk 500 10 1 80.
Definition db_favorite : Db :=
  run db_booked [(authenticated 10, InsertFavorite camry_favorite)].

(** Three completed stays of Alice with the Tesla (vehicle 5), reviewed
    with 4, 5 and 5; then the review with 4 removed by the service role. *)
Definition tesla_stay (start : timestamptz) : NewBooking.t :=
  NewBooking.mk 10 5 start (start + 10) "Tech District" 950 (Some "completed")
    (Some "completed") None None.

Definition db_three_reviews : Db :=
  run (migrated [alice])
      [(authenticated 10, InsertBooking 201 1000 (tesla_stay 1100));
       (authenticated 10, InsertBooking 202 1001 (tesla_stay 1200));
       (authenticated 10, InsertBooking 203 1002 (tesla_stay 1300));
       (authenticated 10, InsertReview (Review.mk 301 10 5 201 4 None 2000));
       (authenticated 10, InsertReview (Review.mk 302 10 5 202 5 None 2001));
       (authenticated 10, InsertReview (Review.mk 303 10 5 203 5 None 2002))].

Definition db_review_deleted : Db :=
  run db_three_reviews [(service_role, DeleteReview 301)].

(** Carol signs up after the migration and so receives a profile. *)
Definition carol : AuthUser.t :=
  AuthUser.mk 13 (Some "carol@example.com") (Some "Carol") None.
Definition db_carol : Db :=
  run db_paid [(service_role, SignUp carol)].




(** The lists the profile screens start from. *)
Definition initial_locations : list PickupLocations.Location :=
  [ PickupLocations.mkLocation "1" "Home" "123 Main St, City, State 12345" true;
    PickupLocations.mkLocation "2" "Work" "456 Business Ave, City, State 12345" false ].

Definition initial_methods : list PaymentMethods.PaymentMethod :=
  [ PaymentMethods.mkMethod "1" "card" "Visa ending in 1234" "Expires 12/25" true;
    PaymentMethods.mkMethod "2" "paypal" "PayPal" "user@example.com" false ].

(** ** Helper lemmas *)

Lemma bind_Ok {A B : Type} (m : result A) (k : A -> result B) (b : B) :
  bind m k = Ok b -> exists a, m = Ok a /\ k a = Ok b.
Proof.
  destruct m as [a | e]; simpl; intros H; [exists a; split; [reflexivity | exact H] | discriminate].
Qed.

Lemma check_Ok (c : bool) (e : pg_error) (u : unit) : check c e = Ok u -> c = true.
Proof. unfold check; destruct c; [reflexivity | discriminate]. Qed.

(** Peel one [ensure] or bind off a hypothesis [H : ... = Ok _]. *)
Ltac step_ok H :=
  let a := fresh "a" in let Hc := fresh "Hc" in
  apply bind_Ok in H; destruct H as [a [Hc H]];
  try (apply check_Ok in Hc).


Lemma filter_filter_absorb {A : Type} (p q : A -> bool) (l : list A) :
  (forall x, In x l -> p x = true -> q x = true) ->
  filter p (filter q l) = filter p l.
Proof.
  induction l as [| x l IH]; simpl; intros H; [reflexivity |].
  destruct (q x) eqn:Hq; simpl.
  - destruct (p x); rewrite IH; auto.
  - destruct (p x) eqn:Hp.
    + rewrite (H x (or_introl eq_refl) Hp) in Hq. discriminate.
    + apply IH. auto.
Qed.








(** ** Rating aggregation *)





Lemma reachable_run1 (s : Db) (c : role * statement) :
  reachable s -> reachable (run1 s c).
Proof.
  intros Hr. unfold run1. destruct (exec (fst c) (snd c) s) eqn:E.
  - exact (reach_step s (fst c) (snd c) a Hr E).
  - exact Hr.
Qed.

Lemma reachable_run (cs : list (role * statement)) (s : Db) :
  reachable s -> reachable (run s cs).
Proof.
  revert s. induction cs as [| c cs IH]; simpl; intros s Hr; [exact Hr |].
  apply IH. apply reachable_run1. exact Hr.
Qed.



(** The trigger looks at [NEW.vehicle_id] only when both records are there:
    after the review is re-pointed at the Honda, the Honda is recomputed and
    the Camry keeps the aggregate of a review it no longer has. *)
Example moved_review_leaves_stale_aggregate :
  find (fun v => Nat.eqb (Vehicle.id v) 1) (vehicles db_moved)
    = Some (Vehicle.mk 1 "Toyota Camry 2024" (Some true) (4 / 1)%Q 1%Z)
  /\ reviews_of 1 db_moved = []
  /\ find (fun v => Nat.eqb (Vehicle.id v) 2) (vehicles db_moved)
    = Some (Vehicle.mk 2 "Honda CR-V 2023" (Some true) (4 / 1)%Q 1%Z).
Proof. vm_compute. repeat split. Qed.

(** ** Review submission *)






(** ** Bookings: frames and invariants *)

Lemma trigger_frame (NEW OLD : option Review.t) (s s' : Db) :
  update_vehicle_rating NEW OLD s = Ok s' ->
  users s' = users s /\ profiles s' = profiles s /\ bookings s' = bookings s
  /\ favorites s' = favorites s /\ reviews s' = reviews s.
Proof.
  unfold update_vehicle_rating.
  destruct (COALESCE2 _ _).
  - destruct (_ && _); [discriminate |].
    intros H; injection H as <-. simpl. auto.
  - intros H; injection H as <-. auto.
Qed.

(** How a successful statement changes [bookings]: every row afterwards was
    there before or has just passed the table's constraints. *)
Lemma exec_bookings (caller : role) (st : statement) (s s' : Db) :
  exec caller st s = Ok s' ->
  forall b, In b (bookings s') -> In b (bookings s) \/ valid_dates b = true.
Proof.
  destruct st; simpl; intros H b Hin.
  - (* SignUp *)
    unfold sign_up in H. step_ok H. unfold handle_new_user in H. simpl in H.
    destruct (AuthUser.email u); [| discriminate].
    step_ok H. step_ok H. injection H as <-. left. exact Hin.
  - (* InsertBooking *)
    step_ok H. injection H as <-.
    unfold insert_booking in Hc. step_ok Hc. step_ok Hc.
    injection Hc as <-. simpl in Hin.
    apply in_app_or in Hin. destruct Hin as [Hin | [<- | []]]; [left; exact Hin | right].
    unfold bookings_constraints in Hc1. do 5 step_ok Hc1. assumption.
  - (* UpdateBooking *)
    unfold update_booking in H. destruct (find_booking bid s); [| injection H as <-; auto].
    destruct (negb _); [injection H as <-; auto |].
    step_ok H. step_ok H. injection H as <-. simpl in Hin.
    apply in_map_iff in Hin. destruct Hin as [x [Hx Hin]].
    destruct (Nat.eqb (Booking.id x) bid); [right | left; subst; exact Hin].
    subst b. unfold bookings_constraints in Hc0. do 5 step_ok Hc0. assumption.
  - (* InsertReview *)
    unfold insert_review in H. step_ok H. step_ok H.
    apply trigger_frame in H. destruct H as [_ [_ [Hb _]]].
    rewrite Hb in Hin. left. exact Hin.
  - (* UpdateReview *)
    unfold update_review in H. destruct (find_review rid s); [| injection H as <-; auto].
    destruct (negb _); [injection H as <-; auto |].
    step_ok H. step_ok H.
    apply trigger_frame in H. destruct H as [_ [_ [Hb _]]].
    rewrite Hb in Hin. left. exact Hin.
  - (* DeleteReview *)
    unfold delete_review in H.
    destruct caller; [injection H as <-; auto |].
    destruct (find_review rid s); [| injection H as <-; auto].
    apply trigger_frame in H. destruct H as [_ [_ [Hb _]]].
    rewrite Hb in Hin. left. exact Hin.
  - (* InsertFavorite *)
    unfold insert_favorite in H. step_ok H. step_ok H. injection H as <-. auto.
  - (* UpdateFavorite *)
    unfold update_favorite in H. destruct (find_favorite fid s); [| injection H as <-; auto].
    destruct (negb _); [injection H as <-; auto |].
    step_ok H. step_ok H. injection H as <-. auto.
  - (* DeleteFavorite *)
    unfold delete_favorite in H. destruct (find_favorite fid s); [| injection H as <-; auto].
    destruct (match caller with authenticated _ => _ | service_role => _ end);
      injection H as <-; auto.
  - (* UpdateVehicleAvailable *)
    unfold update_vehicle_available in H.
    destruct (match caller with authenticated _ => _ | service_role => _ end);
      injection H as <-; auto.
Qed.

Lemma reachable_valid_dates (s : Db) :
  reachable s ->
  forall b, In b (bookings s) -> (Booking.start_date b < Booking.end_date b)%Z.
Proof.
  induction 1 as [us | s caller st s' Hr IH Hex]; intros b Hin.
  - contradiction.
  - destruct (exec_bookings _ _ _ _ Hex b Hin) as [Hold | Hnew].
    + apply IH. exact Hold.
    + unfold valid_dates in Hnew. apply Z.ltb_lt. exact Hnew.
Qed.

(** C3.  Every stored booking ends strictly after it starts, and
    [createBooking] with [endDate <= startDate] is rejected by the CHECK
    constraint [valid_dates] (the spec's [InvalidDateRange]); being an
    error, it stores nothing. *)
Theorem bookings_valid_dates :
  (forall s, reachable s ->
             forall b, In b (bookings s) ->
                       (Booking.start_date b < Booking.end_date b)%Z)
  /\ (forall requester vehicleId startDate endDate pickupLocation totalPrice
             id now s,
         (endDate <= startDate)%Z ->
         createBooking requester vehicleId startDate endDate pickupLocation
           totalPrice id now s
         = Err (CheckViolation "valid_dates")).
Proof.
  split.
  - exact reachable_valid_dates.
  - intros requester vehicleId startDate endDate pickupLocation totalPrice id now s Hle.
    unfold createBooking, insert_booking. simpl.
    unfold policy_own_booking. simpl. rewrite Nat.eqb_refl. simpl.
    unfold bookings_constraints, valid_dates. simpl.
    destruct (Z.ltb_spec startDate endDate); [lia | reflexivity].
Qed.

Lemma bookings_valid_dates_witness :
  (forall b, In b (bookings db_booked) ->
             (Booking.start_date b < Booking.end_date b)%Z)
  /\ createBooking 10 1 200 200 "Downtown" 180 101 60 db_booked
     = Err (CheckViolation "valid_dates").
Proof.
  split.
  - apply (proj1 bookings_valid_dates db_booked).
    apply reachable_run. constructor.
  - apply (proj2 bookings_valid_dates). lia.
Defined.

(** ** Booking creation *)

Lemma insert_booking_Ok (caller : role) (id : uuid) (now : timestamptz)
    (nb : NewBooking.t) (s s' : Db) (b : Booking.t) :
  insert_booking caller id now nb s = Ok (b, s') ->
  b = booking_row id now nb
  /\ s' = set_bookings (bookings s ++ [b]) s
  /\ match caller with
     | authenticated uid => policy_own_booking uid b
     | service_role => true
     end = true
  /\ bookings_constraints b (bookings s) s = Ok tt.
Proof.
  unfold insert_booking. intros H. step_ok H. step_ok H.
  injection H as <- <-. destruct a0. auto.
Qed.

(** C5.  A successful INSERT by an authenticated caller that leaves [status]
    and [payment_status] to their DEFAULTs stores a row with both set to
    'pending' and owned by the caller (the policy "Users can create
    bookings" admits no other owner); [createBooking] is such an insert. *)
Theorem createBooking_initial_values :
  (forall uid id now nb s b s',
      NewBooking.status nb = None ->
      NewBooking.payment_status nb = None ->
      insert_booking (authenticated uid) id now nb s = Ok (b, s') ->
      Booking.status b = "pending"
      /\ Booking.payment_status b = "pending"
      /\ Booking.user_id b = uid
      /\ In b (bookings s'))
  /\ (forall requester vehicleId startDate endDate pickupLocation totalPrice
             id now s b s',
         createBooking requester vehicleId startDate endDate pickupLocation
           totalPrice id now s = Ok (b, s') ->
         Booking.status b = "pending"
         /\ Booking.payment_status b = "pending"
         /\ Booking.user_id b = requester
         /\ In b (bookings s')).
Proof.
  assert (General :
    forall uid id now nb s b s',
      NewBooking.status nb = None ->
      NewBooking.payment_status nb = None ->
      insert_booking (authenticated uid) id now nb s = Ok (b, s') ->
      Booking.status b = "pending"
      /\ Booking.payment_status b = "pending"
      /\ Booking.user_id b = uid
      /\ In b (bookings s')).
  { intros uid id now nb s b s' Hst Hpay H.
    apply insert_booking_Ok in H. destruct H as [Hb [Hs' [Hpol _]]].
    unfold policy_own_booking in Hpol. apply Nat.eqb_eq in Hpol.
    repeat split.
    - rewrite Hb. simpl. rewrite Hst. reflexivity.
    - rewrite Hb. simpl. rewrite Hpay. reflexivity.
    - symmetry. exact Hpol.
    - rewrite Hs'. simpl. apply in_or_app. right. left. reflexivity. }
  split; [exact General |].
  intros requester vehicleId startDate endDate pickupLocation totalPrice
         id now s b s' H.
  unfold createBooking in H.
  apply (General _ _ _ _ _ _ _) in H; [exact H | reflexivity | reflexivity].
Qed.

(** The spec's scenario: start 2025-06-01, end 2025-06-05 (as day numbers),
    price 180.00. *)
Lemma createBooking_initial_values_witness :
  exists b s',
    createBooking 10 1 20240 20244 "Downtown" 180 101 20000 db_booked = Ok (b, s')
    /\ Booking.status b = "pending"
    /\ Booking.payment_status b = "pending"
    /\ Booking.user_id b = 10
    /\ In b (bookings s').
Proof.
  eexists. eexists. split; [vm_compute; reflexivity |].
  eapply (proj2 createBooking_initial_values 10 1 20240%Z 20244%Z "Downtown" 180%Q
                101 20000%Z db_booked).
  vm_compute. reflexivity.
Defined.






(** ** The bookings screen *)

(** C4.  A booking is listed under "upcoming" exactly when its start lies
    strictly after the current time or its status is 'active', and under
    "past" exactly otherwise; the answer is computed from the start date,
    the status and the current time alone. *)
Theorem isUpcoming_classification (booking : BookingsScreen.Booking)
    (bookings : list BookingsScreen.Booking)
    (now : timestamptz) :
  (BookingsScreen.isUpcoming booking now = true
   <-> (now < Booking.start_date (BookingsScreen.columns booking))%Z
       \/ Booking.status (BookingsScreen.columns booking) = "active")
  /\ (In booking (BookingsScreen.filteredBookings BookingsScreen.upcoming bookings now)
      <-> In booking bookings
          /\ ((now < Booking.start_date (BookingsScreen.columns booking))%Z
              \/ Booking.status (BookingsScreen.columns booking) = "active"))
  /\ (In booking (BookingsScreen.filteredBookings BookingsScreen.past bookings now)
      <-> In booking bookings
          /\ ~ ((now < Booking.start_date (BookingsScreen.columns booking))%Z
                \/ Booking.status (BookingsScreen.columns booking) = "active")).
Proof.
  assert (Hup : BookingsScreen.isUpcoming booking now = true
                <-> (now < Booking.start_date (BookingsScreen.columns booking))%Z
                    \/ Booking.status (BookingsScreen.columns booking) = "active").
  { unfold BookingsScreen.isUpcoming. rewrite orb_true_iff, Z.ltb_lt, String.eqb_eq. reflexivity. }
  split; [exact Hup | split].
  - unfold BookingsScreen.filteredBookings. rewrite filter_In, Hup. reflexivity.
  - unfold BookingsScreen.filteredBookings. rewrite filter_In, negb_true_iff, <- Hup.
    rewrite not_true_iff_false. reflexivity.
Qed.







(** ** The dashboard's revenue *)







(** ** Who is reported as admin *)






(** The profile [handle_new_user] writes carries the admin flag exactly for
    the configured email. *)
Lemma handle_new_user_flag (u : AuthUser.t) (s s' : Db) :
  handle_new_user u s = Ok s' ->
  exists e p,
    AuthUser.email u = Some e
    /\ profiles s' = profiles s ++ [p]
    /\ Profile.id p = AuthUser.id u
    /\ Profile.email p = e
    /\ (Profile.is_admin p = Some true <-> e = ADMIN_EMAIL).
Proof.
  unfold handle_new_user. destruct (AuthUser.email u) as [e |]; [| discriminate].
  intros H. step_ok H. step_ok H. injection H as <-.
  eexists. eexists. split; [reflexivity |]. split; [reflexivity |]. simpl.
  split; [reflexivity | split; [reflexivity |]].
  destruct (String.eqb e ADMIN_EMAIL) eqn:E.
  - apply String.eqb_eq in E. split; auto.
  - apply String.eqb_neq in E. split; [discriminate | contradiction].
Qed.

(** ** Uniqueness of favorites *)

Lemma NoDup_snoc {A : Type} (l : list A) (a : A) :
  NoDup l -> ~ In a l -> NoDup (l ++ [a]).
Proof.
  intros Hnd Hnotin.
  apply (Permutation_NoDup (Permutation_cons_append l a)).
  constructor; assumption.
Qed.

Lemma NoDup_map_filter {A B : Type} (key : A -> B) (p : A -> bool) (l : list A) :
  NoDup (map key l) -> NoDup (map key (filter p l)).
Proof.
  induction l as [| a l IH]; simpl; intros Hnd; [constructor |].
  inversion Hnd as [| ? ? Hnotin Hnd']; subst.
  destruct (p a); simpl; [constructor |]; auto.
  intros Hin. apply Hnotin. apply in_map_iff in Hin.
  destruct Hin as [x [Hx Hin]]. apply filter_In in Hin.
  rewrite <- Hx. apply in_map. tauto.
Qed.

Lemma favorite_pair_taken_iff (uid vid : uuid) (fs : list Favorite.t) :
  favorite_pair_taken uid vid fs = true <-> In (uid, vid) (map favorite_pair fs).
Proof.
  unfold favorite_pair_taken. rewrite existsb_exists, in_map_iff.
  split; intros [f [H1 H2]]; exists f.
  - rewrite andb_true_iff, !Nat.eqb_eq in H2. destruct H2 as [<- <-].
    split; [reflexivity | exact H1].
  - unfold favorite_pair in H1. injection H1 as <- <-.
    split; [exact H2 |]. rewrite !Nat.eqb_refl. reflexivity.
Qed.

Lemma favorite_id_taken_iff (fid : uuid) (fs : list Favorite.t) :
  existsb (fun f => Nat.eqb (Favorite.id f) fid) fs = true
  <-> In fid (map Favorite.id fs).
Proof.
  rewrite existsb_exists, in_map_iff.
  split; intros [f [H1 H2]]; exists f.
  - apply Nat.eqb_eq in H2. auto.
  - rewrite Nat.eqb_eq. auto.
Qed.

Lemma favorites_constraints_Ok (new : Favorite.t) (others : list Favorite.t) (s : Db) :
  favorites_constraints new others s = Ok tt ->
  ~ In (Favorite.id new) (map Favorite.id others)
  /\ ~ In (favorite_pair new) (map favorite_pair others).
Proof.
  unfold favorites_constraints. intros H. step_ok H. step_ok H. clear H.
  rewrite negb_true_iff in Hc, Hc0. split; intros Hin.
  - apply favorite_id_taken_iff in Hin. congruence.
  - apply favorite_pair_taken_iff in Hin. congruence.
Qed.

(** Replacing the row [fid] by [new] keeps ids and pairs unique, provided
    the pair of [new] is not held by any other row. *)
Lemma replace_favorite_unique (fid : uuid) (new : Favorite.t) (l : list Favorite.t) :
  Favorite.id new = fid ->
  NoDup (map Favorite.id l) ->
  NoDup (map favorite_pair l) ->
  ~ In (favorite_pair new) (map favorite_pair (without_favorite fid l)) ->
  map Favorite.id (map (fun f => if Nat.eqb (Favorite.id f) fid then new else f) l)
  = map Favorite.id l
  /\ NoDup (map favorite_pair
              (map (fun f => if Nat.eqb (Favorite.id f) fid then new else f) l)).
Proof.
  intros Hnew. set (g := fun f => if Nat.eqb (Favorite.id f) fid then new else f).
  assert (Hgid : forall f, Favorite.id (g f) = Favorite.id f).
  { intros f. unfold g. destruct (Nat.eqb (Favorite.id f) fid) eqn:E; [| reflexivity].
    apply Nat.eqb_eq in E. congruence. }
  intros Hids Hpairs Hfree. split.
  - rewrite map_map. apply map_ext. exact Hgid.
  - induction l as [| x l IH]; simpl; [constructor |].
    inversion Hids as [| ? ? Hxid Hids']; subst.
    inversion Hpairs as [| ? ? Hxpair Hpairs']; subst.
    simpl in Hfree.
    destruct (Nat.eqb (Favorite.id x) (Favorite.id new)) eqn:E.
    + (* x is the row replaced; no other row has its id *)
      simpl in Hfree. apply Nat.eqb_eq in E.
      assert (Hrest : forall y, In y l -> Nat.eqb (Favorite.id y) (Favorite.id new) = false).
      { intros y Hy. apply Nat.eqb_neq. intros Ey. apply Hxid.
        rewrite E, <- Ey. apply in_map. exact Hy. }
      assert (Hmap : map g l = l).
      { rewrite <- (map_id l) at 2. apply map_ext_in. intros y Hy.
        unfold g. rewrite (Hrest y Hy). reflexivity. }
      assert (Hwo : without_favorite (Favorite.id new) l = l).
      { unfold without_favorite. apply forallb_filter_id. apply forallb_forall.
        intros y Hy. rewrite (Hrest y Hy). reflexivity. }
      unfold g at 1. rewrite E, Nat.eqb_refl.
      rewrite Hmap. rewrite Hwo in Hfree. constructor; assumption.
    + (* x stays *)
      simpl in Hfree. unfold g at 1. rewrite E.
      constructor.
      * intros Hin. apply in_map_iff in Hin. destruct Hin as [y' [Hy' Hin]].
        apply in_map_iff in Hin. destruct Hin as [y [Hy Hin]]. subst y'.
        unfold g in Hy'. destruct (Nat.eqb (Favorite.id y) (Favorite.id new)).
        -- apply Hfree. left. symmetry. exact Hy'.
        -- apply Hxpair. rewrite <- Hy'. apply in_map. exact Hin.
      * apply IH; auto.
Qed.

(** Statements on other tables leave [favorites] alone. *)
Lemma exec_favorites_frame (caller : role) (st : statement) (s s' : Db) :
  exec caller st s = Ok s' ->
  match st with
  | InsertFavorite _ | UpdateFavorite _ _ | DeleteFavorite _ => True
  | _ => favorites s' = favorites s
  end.
Proof.
  destruct st; simpl; intros H; try exact I.
  - unfold sign_up in H. step_ok H. unfold handle_new_user in H. simpl in H.
    destruct (AuthUser.email u); [| discriminate].
    step_ok H. step_ok H. injection H as <-. reflexivity.
  - step_ok H. injection H as <-.
    unfold insert_booking in Hc. step_ok Hc. step_ok Hc.
    injection Hc as <-. reflexivity.
  - unfold update_booking in H. destruct (find_booking bid s); [| injection H as <-; auto].
    destruct (negb _); [injection H as <-; auto |].
    step_ok H. step_ok H. injection H as <-. reflexivity.
  - unfold insert_review in H. step_ok H. step_ok H.
    apply trigger_frame in H. tauto.
  - unfold update_review in H. destruct (find_review rid s); [| injection H as <-; auto].
    destruct (negb _); [injection H as <-; auto |].
    step_ok H. step_ok H. apply trigger_frame in H. tauto.
  - unfold delete_review in H.
    destruct caller; [injection H as <-; auto |].
    destruct (find_review rid s); [| injection H as <-; auto].
    apply trigger_frame in H. tauto.
  - unfold update_vehicle_available in H.
    destruct (match caller with authenticated _ => _ | service_role => _ end);
      injection H as <-; auto.
Qed.

Lemma exec_favorites_unique (caller : role) (st : statement) (s s' : Db) :
  exec caller st s = Ok s' ->
  favorites_pkey s /\ favorites_unique s ->
  favorites_pkey s' /\ favorites_unique s'.
Proof.
  unfold favorites_pkey, favorites_unique. intros H [Hids Hpairs].
  pose proof (exec_favorites_frame caller st s s' H) as Hframe.
  destruct st; try (rewrite Hframe; auto; fail); clear Hframe; simpl in H.
  - (* InsertFavorite *)
    unfold insert_favorite in H. step_ok H. step_ok H. injection H as <-.
    destruct a0. apply favorites_constraints_Ok in Hc0. destruct Hc0 as [Hid Hpair].
    simpl. rewrite !map_app. simpl. split; apply NoDup_snoc; assumption.
  - (* UpdateFavorite *)
    unfold update_favorite in H. destruct (find_favorite fid s); [| injection H as <-; auto].
    destruct (negb _); [injection H as <-; auto |].
    step_ok H. step_ok H. injection H as <-.
    destruct a0. apply favorites_constraints_Ok in Hc0. destruct Hc0 as [_ Hpair].
    simpl.
    destruct (replace_favorite_unique fid
                (Favorite.mk fid (Favorite.user_id new) (Favorite.vehicle_id new)
                   (Favorite.created_at t))
                (favorites s) eq_refl Hids Hpairs Hpair)
      as [Hsame Hnd].
    rewrite Hsame. auto.
  - (* DeleteFavorite *)
    unfold delete_favorite in H. destruct (find_favorite fid s); [| injection H as <-; auto].
    destruct (match caller with authenticated _ => _ | service_role => _ end);
      injection H as <-; auto.
    simpl. unfold without_favorite. split; apply NoDup_map_filter; assumption.
Qed.

Lemma reachable_favorites_unique (s : Db) :
  reachable s -> favorites_pkey s /\ favorites_unique s.
Proof.
  induction 1 as [us | s caller st s' Hr IH Hex].
  - unfold favorites_pkey, favorites_unique. simpl. split; constructor.
  - exact (exec_favorites_unique _ _ _ _ Hex IH).
Qed.

(** C8.  In every reachable state no two favorites share their (user_id,
    vehicle_id) pair.  Adding a favorite whose pair is already stored
    fails, so the table is left as it was; when the caller adds it for
    itself under a fresh id, the error is the violation of the unique key
    on the pair. *)
Theorem favorites_pairs_unique :
  (forall s, reachable s -> favorites_unique s)
  /\ (forall caller new s,
         In (favorite_pair new) (map favorite_pair (favorites s)) ->
         exists e, insert_favorite caller new s = Err e)
  /\ (forall new s,
         In (favorite_pair new) (map favorite_pair (favorites s)) ->
         ~ In (Favorite.id new) (map Favorite.id (favorites s)) ->
         insert_favorite (authenticated (Favorite.user_id new)) new s
         = Err (UniqueViolation "favorites_user_id_vehicle_id_key")).
Proof.
  split; [| split].
  - intros s Hr. apply reachable_favorites_unique. exact Hr.
  - intros caller new s Hin.
    destruct (insert_favorite caller new s) as [s' |] eqn:E; [| eexists; reflexivity].
    exfalso. unfold insert_favorite in E. step_ok E. step_ok E.
    destruct a0. apply favorites_constraints_Ok in Hc0. tauto.
  - intros new s Hin Hfresh. unfold insert_favorite, policy_own_favorite. simpl.
    rewrite Nat.eqb_refl. simpl. unfold favorites_constraints.
    destruct (existsb (fun f => Nat.eqb (Favorite.id f) (Favorite.id new)) (favorites s))
      eqn:E1.
    + apply favorite_id_taken_iff in E1. contradiction.
    + simpl. apply favorite_pair_taken_iff in Hin. rewrite Hin. reflexivity.
Qed.

Lemma favorites_pairs_unique_witness :
  favorites_unique db_favorite
  /\ insert_favorite (authenticated 10) (Favorite.mk 501 10 1 90) db_favorite
     = Err (UniqueViolation "favorites_user_id_vehicle_id_key").
Proof.
  split.
  - apply (proj1 favorites_pairs_unique). apply reachable_run.
    apply reachable_run. constructor.
  - apply (proj2 (proj2 favorites_pairs_unique) (Favorite.mk 501 10 1 90%Z) db_favorite).
    + vm_compute. left. reflexivity.
    + vm_compute. intros [H | []]. discriminate H.
Defined.

(** ** The trigger never blocks a review mutation *)




Lemma reviews_constraints_Ok (new : Review.t) (others : list Review.t) (s : Db) :
  reviews_constraints new others s = Ok tt ->
  reviews_rating_check new = true
  /\ ~ In (Review.id new) (map Review.id others).
Proof.
  unfold reviews_constraints. intros H. step_ok H. step_ok H. clear H.
  split; [exact Hc |].
  rewrite negb_true_iff in Hc0. intros Hin.
  apply in_map_iff in Hin. destruct Hin as [r [Hr Hin]].
  assert (E : existsb (fun r => Nat.eqb (Review.id r) (Review.id new)) others = true)
    by (apply existsb_exists; exists r; split; [exact Hin | apply Nat.eqb_eq; exact Hr]).
  congruence.
Qed.

Lemma exec_reviews_inv (caller : role) (st : statement) (s s' : Db) :
  exec caller st s = Ok s' -> reviews_inv s -> reviews_inv s'.
Proof.
  unfold reviews_inv, reviews_pkey. intros H [Hids Hrat].
  destruct st; simpl in H.
  - unfold sign_up in H. step_ok H. unfold handle_new_user in H. simpl in H.
    destruct (AuthUser.email u); [| discriminate].
    step_ok H. step_ok H. injection H as <-. auto.
  - step_ok H. injection H as <-.
    unfold insert_booking in Hc. step_ok Hc. step_ok Hc.
    injection Hc as <-. auto.
  - unfold update_booking in H. destruct (find_booking bid s); [| injection H as <-; auto].
    destruct (negb _); [injection H as <-; auto |].
    step_ok H. step_ok H. injection H as <-. auto.
  - (* InsertReview *)
    unfold insert_review in H. step_ok H. step_ok H.
    apply trigger_frame in H. destruct H as [_ [_ [_ [_ ->]]]]. simpl.
    destruct a0. apply reviews_constraints_Ok in Hc0. destruct Hc0 as [Hr Hid].
    split.
    + rewrite map_app. apply NoDup_snoc; assumption.
    + intros r Hin. apply in_app_or in Hin.
      destruct Hin as [Hin | [<- | []]]; auto.
  - (* UpdateReview *)
    unfold update_review in H. destruct (find_review rid s); [| injection H as <-; auto].
    destruct (negb _); [injection H as <-; auto |].
    step_ok H. step_ok H.
    apply trigger_frame in H. destruct H as [_ [_ [_ [_ ->]]]]. simpl.
    destruct a0. apply reviews_constraints_Ok in Hc0. destruct Hc0 as [Hr _].
    split.
    + rewrite map_map.
      rewrite (map_ext _ Review.id); [exact Hids |].
      intros r. destruct (Nat.eqb (Review.id r) rid) eqn:E; [| reflexivity].
      apply Nat.eqb_eq in E. simpl. congruence.
    + intros r Hin. apply in_map_iff in Hin. destruct Hin as [x [Hx Hin]].
      destruct (Nat.eqb (Review.id x) rid); subst; auto.
  - (* DeleteReview *)
    unfold delete_review in H.
    destruct caller; [injection H as <-; auto |].
    destruct (find_review rid s); [| injection H as <-; auto].
    apply trigger_frame in H. destruct H as [_ [_ [_ [_ ->]]]]. simpl.
    unfold without_review. split.
    + apply NoDup_map_filter. exact Hids.
    + intros r Hin. apply filter_In in Hin. apply Hrat. tauto.
  - unfold insert_favorite in H. step_ok H. step_ok H. injection H as <-. auto.
  - unfold update_favorite in H. destruct (find_favorite fid s); [| injection H as <-; auto].
    destruct (negb _); [injection H as <-; auto |].
    step_ok H. step_ok H. injection H as <-. auto.
  - unfold delete_favorite in H. destruct (find_favorite fid s); [| injection H as <-; auto].
    destruct (match caller with authenticated _ => _ | service_role => _ end);
      injection H as <-; auto.
  - unfold update_vehicle_available in H.
    destruct (match caller with authenticated _ => _ | service_role => _ end);
      injection H as <-; auto.
Qed.



(** The specification's scenario: reviews rated 4, 5, 5 give 14/3 and 3;
    deleting the review rated 4 gives 5 and 2. *)
Example ratings_4_5_5 :
  (exists v, find (fun v => Nat.eqb (Vehicle.id v) 5) (vehicles db_three_reviews)
             = Some v
             /\ Qeq (Vehicle.rating v) (14 # 3)
             /\ Vehicle.total_reviews v = 3%Z)
  /\ (exists v, find (fun v => Nat.eqb (Vehicle.id v) 5) (vehicles db_review_deleted)
                = Some v
                /\ Qeq (Vehicle.rating v) 5
                /\ Vehicle.total_reviews v = 2%Z).
Proof.
  split; eexists; (split; [vm_compute; reflexivity |]); split; reflexivity.
Qed.

(** ** Ordering by insertion *)

Section OrderByFacts.
Context {A : Type}.
Variable lt : A -> A -> bool.



(** [lt] compares keys of a total order: it is irreflexive, and an element
    that sorts after [x] or with it stands to whatever sorts before [x] as
    [x] does. *)
Hypothesis lt_irrefl : forall x, lt x x = false.
Hypothesis lt_chain :
  forall x b y, lt x b = true -> lt x y = false ->
                lt b y = false /\ lt y b = true.






End OrderByFacts.

(** ** What a successful statement does *)

Lemma unit_tt (u : unit) : u = tt.
Proof. destruct u. reflexivity. Qed.

(** The trigger rewrites vehicle rows in place; a row it changes keeps its
    id, name and availability and receives a rating that passes the CHECK
    and a count that is not negative. *)
Lemma trigger_shape (NEW OLD : option Review.t) (s s' : Db) :
  update_vehicle_rating NEW OLD s = Ok s' ->
  exists g,
    s' = set_vehicles (map g (vehicles s)) s
    /\ forall v, In v (vehicles s) ->
                 g v = v
                 \/ (Vehicle.id (g v) = Vehicle.id v
                     /\ Vehicle.name (g v) = Vehicle.name v
                     /\ Vehicle.available (g v) = Vehicle.available v
                     /\ vehicles_rating_check (Vehicle.rating (g v)) = true
                     /\ (0 <= Vehicle.total_reviews (g v))%Z).
Proof.
  unfold update_vehicle_rating.
  destruct (COALESCE2 _ _) as [vid |].
  - destruct (existsb _ _ && negb _) eqn:E; [discriminate |].
    intros H; injection H as <-.
    eexists. split; [reflexivity |]. intros v Hin. simpl.
    destruct (Nat.eqb (Vehicle.id v) vid) eqn:Ev; [right | left; reflexivity].
    simpl. repeat split; try (unfold COUNT; lia).
    apply andb_false_iff in E. destruct E as [E | E].
    + assert (Hex : existsb (fun v0 => Nat.eqb (Vehicle.id v0) vid) (vehicles s) = true)
        by (apply existsb_exists; exists v; split; assumption).
      congruence.
    + apply negb_false_iff in E. exact E.
  - intros H; injection H as <-. exists (fun v => v).
    split; [| intros v _; left; reflexivity].
    rewrite map_id. destruct s; reflexivity.
Qed.

(** Inversion of [exec]: what each kind of statement has checked and done
    when it succeeds. *)
Lemma exec_shape (caller : role) (st : statement) (s s' : Db) :
  exec caller st s = Ok s' ->
  match st with
  | SignUp u =>
      exists e,
        AuthUser.email u = Some e
        /\ exists_user (AuthUser.id u) s = false
        /\ ~ In (AuthUser.id u) (map Profile.id (profiles s))
        /\ ~ In e (map Profile.email (profiles s))
        /\ s' = set_profiles
                  (profiles s ++
                   [Profile.mk (AuthUser.id u) e
                      (Some (COALESCE (AuthUser.meta_full_name u) "")) None
                      (Some (if String.eqb e ADMIN_EMAIL then true else false))])
                  (set_users (users s ++ [u]) s)
  | InsertBooking id now nb =>
      role_admits caller policy_own_booking (booking_row id now nb) = true
      /\ bookings_constraints (booking_row id now nb) (bookings s) s = Ok tt
      /\ s' = set_bookings (bookings s ++ [booking_row id now nb]) s
  | UpdateBooking bid new =>
      s' = s
      \/ exists old new',
           find_booking bid s = Some old
           /\ new' = Booking.mk bid (Booking.user_id new) (Booking.vehicle_id new)
                       (Booking.start_date new) (Booking.end_date new)
                       (Booking.pickup_location new) (Booking.total_price new)
                       (Booking.status new) (Booking.payment_status new)
                       (Booking.fuel_level_pickup new)
                       (Booking.fuel_level_dropoff new) (Booking.created_at old)
           /\ (caller = service_role
               \/ exists uid, caller = authenticated uid
                              /\ (policy_own_booking uid old
                                  || policy_admin_bookings uid s) = true
                              /\ (policy_own_booking uid new'
                                  || policy_admin_bookings uid s) = true)
           /\ bookings_constraints new' (without_booking bid (bookings s)) s = Ok tt
           /\ s' = set_bookings
                     (map (fun b => if Nat.eqb (Booking.id b) bid then new' else b)
                          (bookings s)) s
  | InsertReview new =>
      role_admits caller (fun uid r => policy_create_reviews uid r s) new = true
      /\ reviews_constraints new (reviews s) s = Ok tt
      /\ update_vehicle_rating (Some new) None (set_reviews (reviews s ++ [new]) s)
         = Ok s'
  | UpdateReview rid new =>
      s' = s
      \/ exists old new',
           find_review rid s = Some old
           /\ new' = Review.mk rid (Review.user_id new) (Review.vehicle_id new)
                       (Review.booking_id new) (Review.rating new)
                       (Review.comment new) (Review.created_at old)
           /\ reviews_using caller old = true
           /\ reviews_using caller new' = true
           /\ reviews_constraints new' (without_review rid (reviews s)) s = Ok tt
           /\ update_vehicle_rating (Some new') (Some old)
                (set_reviews
                   (map (fun r => if Nat.eqb (Review.id r) rid then new' else r)
                        (reviews s)) s)
              = Ok s'
  | DeleteReview rid =>
      s' = s
      \/ exists old,
           caller = service_role
           /\ find_review rid s = Some old
           /\ update_vehicle_rating None (Some old)
                (set_reviews (without_review rid (reviews s)) s) = Ok s'
  | InsertFavorite new =>
      role_admits caller policy_own_favorite new = true
      /\ favorites_constraints new (favorites s) s = Ok tt
      /\ s' = set_favorites (favorites s ++ [new]) s
  | UpdateFavorite fid new =>
      s' = s
      \/ exists old new',
           find_favorite fid s = Some old
           /\ new' = Favorite.mk fid (Favorite.user_id new) (Favorite.vehicle_id new)
                       (Favorite.created_at old)
           /\ role_admits caller policy_own_favorite old = true
           /\ role_admits caller policy_own_favorite new' = true
           /\ favorites_constraints new' (without_favorite fid (favorites s)) s = Ok tt
           /\ s' = set_favorites
                     (map (fun f => if Nat.eqb (Favorite.id f) fid then new' else f)
                          (favorites s)) s
  | DeleteFavorite fid =>
      s' = s
      \/ exists old,
           find_favorite fid s = Some old
           /\ role_admits caller policy_own_favorite old = true
           /\ s' = set_favorites (without_favorite fid (favorites s)) s
  | UpdateVehicleAvailable vid a =>
      s' = s
      \/ (role_admits caller (fun uid _ => policy_admin_vehicles uid s) tt = true
          /\ s' = set_vehicles
                    (map (fun v =>
                            if Nat.eqb (Vehicle.id v) vid
                            then Vehicle.mk (Vehicle.id v) (Vehicle.name v) a
                                   (Vehicle.rating v) (Vehicle.total_reviews v)
                            else v)
                         (vehicles s)) s)
  end.
Proof.
  destruct st; simpl; intros H.
  - (* SignUp *)
    unfold sign_up in H. step_ok H. unfold handle_new_user in H. simpl in H.
    destruct (AuthUser.email u) as [e |]; [| discriminate].
    step_ok H. step_ok H. injection H as <-.
    rewrite negb_true_iff in Hc, Hc0, Hc1.
    exists e. split; [reflexivity | split; [exact Hc | split; [| split; [| reflexivity]]]].
    + intros Hin. apply in_map_iff in Hin. destruct Hin as [p [Hp Hin]].
      assert (E : existsb (fun p => Nat.eqb (Profile.id p) (AuthUser.id u)) (profiles s)
                  = true)
        by (apply existsb_exists; exists p; split; [exact Hin | apply Nat.eqb_eq; exact Hp]).
      congruence.
    + intros Hin. apply in_map_iff in Hin. destruct Hin as [p [Hp Hin]].
      assert (E : existsb (fun p => String.eqb (Profile.email p) e) (profiles s) = true)
        by (apply existsb_exists; exists p; split;
            [exact Hin | apply String.eqb_eq; exact Hp]).
      congruence.
  - (* InsertBooking *)
    step_ok H. injection H as <-. destruct a as [b s1].
    apply insert_booking_Ok in Hc. destruct Hc as [-> [-> [Hpol Hcon]]].
    simpl. auto.
  - (* UpdateBooking *)
    unfold update_booking in H.
    destruct (find_booking bid s) as [old |] eqn:Hf; [| injection H as <-; auto].
    destruct (negb _) eqn:Hadm; [injection H as <-; auto |].
    apply negb_false_iff in Hadm.
    step_ok H. step_ok H. injection H as <-. right.
    eexists. eexists. split; [reflexivity | split; [reflexivity |]].
    rewrite (unit_tt a0) in Hc0.
    split; [| split; [exact Hc0 | reflexivity]].
    destruct caller as [uid |]; [right | left; reflexivity].
    exists uid. auto.
  - (* InsertReview *)
    unfold insert_review in H. step_ok H. step_ok H.
    rewrite (unit_tt a0) in Hc0. auto.
  - (* UpdateReview *)
    unfold update_review in H.
    destruct (find_review rid s) as [old |] eqn:Hf; [| injection H as <-; auto].
    destruct (negb _) eqn:Hadm; [injection H as <-; auto |].
    apply negb_false_iff in Hadm.
    step_ok H. step_ok H. right.
    rewrite (unit_tt a0) in Hc0.
    eexists. eexists. split; [reflexivity | split; [reflexivity |]]. auto.
  - (* DeleteReview *)
    unfold delete_review in H.
    destruct caller; [injection H as <-; auto |].
    destruct (find_review rid s) as [old |] eqn:Hf; [| injection H as <-; auto].
    right. exists old. auto.
  - (* InsertFavorite *)
    unfold insert_favorite in H. step_ok H. step_ok H. injection H as <-.
    rewrite (unit_tt a0) in Hc0. auto.
  - (* UpdateFavorite *)
    unfold update_favorite in H.
    destruct (find_favorite fid s) as [old |] eqn:Hf; [| injection H as <-; auto].
    destruct (negb _) eqn:Hadm; [injection H as <-; auto |].
    apply negb_false_iff in Hadm.
    step_ok H. step_ok H. injection H as <-. right.
    rewrite (unit_tt a0) in Hc0.
    eexists. eexists. split; [reflexivity | split; [reflexivity |]]. auto.
  - (* DeleteFavorite *)
    unfold delete_favorite in H.
    destruct (find_favorite fid s) as [old |] eqn:Hf; [| injection H as <-; auto].
    destruct (match caller with authenticated _ => _ | service_role => _ end) eqn:Hadm;
      injection H as <-; [right | left; reflexivity].
    exists old. auto.
  - (* UpdateVehicleAvailable *)
    unfold update_vehicle_available in H.
    destruct (match caller with authenticated _ => _ | service_role => _ end) eqn:Hadm;
      injection H as <-; auto.
Qed.

Lemma existsb_map_key {A : Type} (key : A -> uuid) (g : A -> A) (k : uuid)
    (l : list A) :
  (forall x, In x l -> key (g x) = key x) ->
  existsb (fun x => Nat.eqb (key x) k) (map g l)
  = existsb (fun x => Nat.eqb (key x) k) l.
Proof.
  induction l as [| x l IH]; simpl; intros H; [reflexivity |].
  rewrite (H x (or_introl eq_refl)), IH; auto.
Qed.

Lemma existsb_app_true {A : Type} (p : A -> bool) (l l' : list A) :
  existsb p l = true -> existsb p (l ++ l') = true.
Proof. intros H. rewrite existsb_app, H. reflexivity. Qed.

Lemma trigger_exists_vehicle (NEW OLD : option Review.t) (s s' : Db) (vid : uuid) :
  update_vehicle_rating NEW OLD s = Ok s' ->
  exists_vehicle vid s' = exists_vehicle vid s.
Proof.
  intros H. apply trigger_shape in H. destruct H as [g [-> Hg]].
  unfold exists_vehicle. simpl. apply existsb_map_key.
  intros v Hin. destruct (Hg v Hin) as [-> | [Hid _]]; auto.
Qed.

(** Accounts and bookings are never removed and the set of vehicle ids never
    changes, so a reference that was good stays good. *)
Lemma exec_exists (caller : role) (st : statement) (s s' : Db) :
  exec caller st s = Ok s' ->
  (forall uid, exists_user uid s = true -> exists_user uid s' = true)
  /\ (forall vid, exists_vehicle vid s' = exists_vehicle vid s)
  /\ (forall bid, exists_booking bid s = true -> exists_booking bid s' = true).
Proof.
  intros H. pose proof (exec_shape _ _ _ _ H) as Hs. destruct st.
  - destruct Hs as [e [_ [_ [_ [_ ->]]]]].
    unfold exists_user, exists_vehicle, exists_booking. simpl.
    repeat split; auto. intros uid. apply existsb_app_true.
  - destruct Hs as [_ [_ ->]].
    unfold exists_user, exists_vehicle, exists_booking. simpl.
    repeat split; auto. intros bid. apply existsb_app_true.
  - destruct Hs as [-> | [old [new' [_ [Hn [_ [_ ->]]]]]]]; [auto |].
    unfold exists_user, exists_vehicle, exists_booking. simpl.
    repeat split; auto. intros bid'.
    rewrite existsb_map_key; [auto |].
    intros b _. destruct (Nat.eqb (Booking.id b) bid) eqn:E; [| reflexivity].
    apply Nat.eqb_eq in E. subst new'. simpl. auto.
  - destruct Hs as [_ [_ Ht]].
    pose proof (trigger_frame _ _ _ _ Ht) as [Hu [_ [Hb _]]].
    unfold exists_user, exists_booking. rewrite Hu, Hb. simpl.
    repeat split; auto. intros vid. apply (trigger_exists_vehicle _ _ _ _ vid Ht).
  - destruct Hs as [-> | [old [new' [_ [_ [_ [_ [_ Ht]]]]]]]]; [auto |].
    pose proof (trigger_frame _ _ _ _ Ht) as [Hu [_ [Hb _]]].
    unfold exists_user, exists_booking. rewrite Hu, Hb. simpl.
    repeat split; auto. intros vid. apply (trigger_exists_vehicle _ _ _ _ vid Ht).
  - destruct Hs as [-> | [old [_ [_ Ht]]]]; [auto |].
    pose proof (trigger_frame _ _ _ _ Ht) as [Hu [_ [Hb _]]].
    unfold exists_user, exists_booking. rewrite Hu, Hb. simpl.
    repeat split; auto. intros vid. apply (trigger_exists_vehicle _ _ _ _ vid Ht).
  - destruct Hs as [_ [_ ->]]. auto.
  - destruct Hs as [-> | [old [new' [_ [_ [_ [_ [_ ->]]]]]]]]; auto.
  - destruct Hs as [-> | [old [_ [_ ->]]]]; auto.
  - destruct Hs as [-> | [_ ->]]; [auto |].
    unfold exists_user, exists_vehicle, exists_booking. simpl.
    repeat split; auto. intros vid'. apply existsb_map_key.
    intros v _. destruct (Nat.eqb (Vehicle.id v) vid); reflexivity.
Qed.

Lemma bookings_constraints_Ok (new : Booking.t) (others : list Booking.t) (s : Db) :
  bookings_constraints new others s = Ok tt ->
  fuel_level_check (Booking.fuel_level_dropoff new) = true
  /\ fuel_level_check (Booking.fuel_level_pickup new) = true
  /\ bookings_payment_status_check new = true
  /\ bookings_status_check new = true
  /\ valid_dates new = true
  /\ ~ In (Booking.id new) (map Booking.id others)
  /\ exists_user (Booking.user_id new) s = true
  /\ exists_vehicle (Booking.vehicle_id new) s = true.
Proof.
  unfold bookings_constraints. intros H. do 8 step_ok H. clear H.
  repeat split; try assumption.
  rewrite negb_true_iff in Hc4. intros Hin.
  apply in_map_iff in Hin. destruct Hin as [b [Hb Hin]].
  assert (E : existsb (fun b => Nat.eqb (Booking.id b) (Booking.id new)) others = true)
    by (apply existsb_exists; exists b; split; [exact Hin | apply Nat.eqb_eq; exact Hb]).
  congruence.
Qed.

Lemma reviews_constraints_full (new : Review.t) (others : list Review.t) (s : Db) :
  reviews_constraints new others s = Ok tt ->
  reviews_rating_check new = true
  /\ ~ In (Review.id new) (map Review.id others)
  /\ ~ In (review_key new) (map review_key others)
  /\ exists_user (Review.user_id new) s = true
  /\ exists_vehicle (Review.vehicle_id new) s = true
  /\ exists_booking (Review.booking_id new) s = true.
Proof.
  intros H. pose proof (reviews_constraints_Ok _ _ _ H) as [Hr Hid].
  unfold reviews_constraints in H. do 6 step_ok H. clear H.
  repeat split; try assumption.
  rewrite negb_true_iff in Hc1. intros Hin.
  apply in_map_iff in Hin. destruct Hin as [r [Hk Hin]].
  unfold review_key in Hk. injection Hk as Hu Hb.
  assert (E : review_key_taken (Review.user_id new) (Review.booking_id new) others = true).
  { unfold review_key_taken. apply existsb_exists. exists r. split; [exact Hin |].
    rewrite Hu, Hb, !Nat.eqb_refl. reflexivity. }
  congruence.
Qed.

Lemma favorites_constraints_full (new : Favorite.t) (others : list Favorite.t)
    (s : Db) :
  favorites_constraints new others s = Ok tt ->
  exists_user (Favorite.user_id new) s = true
  /\ exists_vehicle (Favorite.vehicle_id new) s = true.
Proof.
  unfold favorites_constraints. intros H. do 4 step_ok H. auto.
Qed.

(** ** Rows after a statement: kept, or admitted by the constraints *)

Lemma exec_bookings_rows (caller : role) (st : statement) (s s' : Db) :
  exec caller st s = Ok s' ->
  forall b, In b (bookings s') ->
            In b (bookings s)
            \/ exists others, bookings_constraints b others s = Ok tt.
Proof.
  intros H b Hin. pose proof (exec_shape _ _ _ _ H) as Hs. destruct st.
  - destruct Hs as [e [_ [_ [_ [_ ->]]]]]. auto.
  - destruct Hs as [_ [Hc ->]]. simpl in Hin. apply in_app_or in Hin.
    destruct Hin as [Hin | [<- | []]]; eauto.
  - destruct Hs as [-> | [old [new' [_ [_ [_ [Hc ->]]]]]]]; [auto |].
    simpl in Hin. apply in_map_iff in Hin. destruct Hin as [x [Hx Hin]].
    destruct (Nat.eqb (Booking.id x) bid); subst; eauto.
  - destruct Hs as [_ [_ Ht]]. apply trigger_frame in Ht.
    destruct Ht as [_ [_ [Hb _]]]. rewrite Hb in Hin. auto.
  - destruct Hs as [-> | [old [new' [_ [_ [_ [_ [_ Ht]]]]]]]]; [auto |].
    apply trigger_frame in Ht. destruct Ht as [_ [_ [Hb _]]]. rewrite Hb in Hin. auto.
  - destruct Hs as [-> | [old [_ [_ Ht]]]]; [auto |].
    apply trigger_frame in Ht. destruct Ht as [_ [_ [Hb _]]]. rewrite Hb in Hin. auto.
  - destruct Hs as [_ [_ ->]]. auto.
  - destruct Hs as [-> | [old [new' [_ [_ [_ [_ [_ ->]]]]]]]]; auto.
  - destruct Hs as [-> | [old [_ [_ ->]]]]; auto.
  - destruct Hs as [-> | [_ ->]]; auto.
Qed.

Lemma exec_favorites_rows (caller : role) (st : statement) (s s' : Db) :
  exec caller st s = Ok s' ->
  forall f, In f (favorites s') ->
            In f (favorites s)
            \/ exists others, favorites_constraints f others s = Ok tt.
Proof.
  intros H f Hin. pose proof (exec_shape _ _ _ _ H) as Hs. destruct st.
  - destruct Hs as [e [_ [_ [_ [_ ->]]]]]. auto.
  - destruct Hs as [_ [_ ->]]. auto.
  - destruct Hs as [-> | [old [new' [_ [_ [_ [_ ->]]]]]]]; auto.
  - destruct Hs as [_ [_ Ht]]. apply trigger_frame in Ht.
    destruct Ht as [_ [_ [_ [Hf _]]]]. rewrite Hf in Hin. auto.
  - destruct Hs as [-> | [old [new' [_ [_ [_ [_ [_ Ht]]]]]]]]; [auto |].
    apply trigger_frame in Ht. destruct Ht as [_ [_ [_ [Hf _]]]]. rewrite Hf in Hin. auto.
  - destruct Hs as [-> | [old [_ [_ Ht]]]]; [auto |].
    apply trigger_frame in Ht. destruct Ht as [_ [_ [_ [Hf _]]]]. rewrite Hf in Hin. auto.
  - destruct Hs as [_ [Hc ->]]. simpl in Hin. apply in_app_or in Hin.
    destruct Hin as [Hin | [<- | []]]; eauto.
  - destruct Hs as [-> | [old [new' [_ [_ [_ [_ [Hc ->]]]]]]]]; [auto |].
    simpl in Hin. apply in_map_iff in Hin. destruct Hin as [x [Hx Hin]].
    destruct (Nat.eqb (Favorite.id x) fid); subst; eauto.
  - destruct Hs as [-> | [old [_ [_ ->]]]]; [auto |].
    simpl in Hin. unfold without_favorite in Hin. apply filter_In in Hin. tauto.
  - destruct Hs as [-> | [_ ->]]; auto.
Qed.

Lemma exec_reviews_rows (caller : role) (st : statement) (s s' : Db) :
  exec caller st s = Ok s' ->
  forall r, In r (reviews s') ->
            In r (reviews s)
            \/ exists others, reviews_constraints r others s = Ok tt.
Proof.
  intros H r Hin. pose proof (exec_shape _ _ _ _ H) as Hs. destruct st.
  - destruct Hs as [e [_ [_ [_ [_ ->]]]]]. auto.
  - destruct Hs as [_ [_ ->]]. auto.
  - destruct Hs as [-> | [old [new' [_ [_ [_ [_ ->]]]]]]]; auto.
  - destruct Hs as [_ [Hc Ht]]. apply trigger_frame in Ht.
    destruct Ht as [_ [_ [_ [_ Hr]]]]. rewrite Hr in Hin. simpl in Hin.
    apply in_app_or in Hin. destruct Hin as [Hin | [<- | []]]; eauto.
  - destruct Hs as [-> | [old [new' [_ [_ [_ [_ [Hc Ht]]]]]]]]; [auto |].
    apply trigger_frame in Ht. destruct Ht as [_ [_ [_ [_ Hr]]]].
    rewrite Hr in Hin. simpl in Hin.
    apply in_map_iff in Hin. destruct Hin as [x [Hx Hin]].
    destruct (Nat.eqb (Review.id x) rid); subst; eauto.
  - destruct Hs as [-> | [old [_ [_ Ht]]]]; [auto |].
    apply trigger_frame in Ht. destruct Ht as [_ [_ [_ [_ Hr]]]].
    rewrite Hr in Hin. simpl in Hin.
    unfold without_review in Hin. apply filter_In in Hin. tauto.
  - destruct Hs as [_ [_ ->]]. auto.
  - destruct Hs as [-> | [old [new' [_ [_ [_ [_ [_ ->]]]]]]]]; auto.
  - destruct Hs as [-> | [old [_ [_ ->]]]]; auto.
  - destruct Hs as [-> | [_ ->]]; auto.
Qed.

Lemma exec_references_ok (caller : role) (st : statement) (s s' : Db) :
  exec caller st s = Ok s' -> references_ok s -> references_ok s'.
Proof.
  intros H [Hb [Hf Hr]].
  destruct (exec_exists _ _ _ _ H) as [Hu [Hv Hbk]].
  split; [| split].
  - intros b Hin.
    destruct (exec_bookings_rows _ _ _ _ H b Hin) as [Hold | [others Hc]].
    + destruct (Hb b Hold). rewrite Hv. auto.
    + apply bookings_constraints_Ok in Hc.
      destruct Hc as [_ [_ [_ [_ [_ [_ [H1 H2]]]]]]]. rewrite Hv. auto.
  - intros f Hin.
    destruct (exec_favorites_rows _ _ _ _ H f Hin) as [Hold | [others Hc]].
    + destruct (Hf f Hold). rewrite Hv. auto.
    + apply favorites_constraints_full in Hc. destruct Hc. rewrite Hv. auto.
  - intros r Hin.
    destruct (exec_reviews_rows _ _ _ _ H r Hin) as [Hold | [others Hc]].
    + destruct (Hr r Hold) as [H1 [H2 H3]]. rewrite Hv. auto.
    + apply reviews_constraints_full in Hc.
      destruct Hc as [_ [_ [_ [H1 [H2 H3]]]]]. rewrite Hv. auto.
Qed.

(** X1.  Referential integrity: in every reachable state each booking and each
    favorite names a stored account and a stored vehicle, and each review
    names a stored account, a stored vehicle and a stored booking. *)
Theorem reachable_references_ok (s : Db) : reachable s -> references_ok s.
Proof.
  induction 1 as [us | s caller st s' Hr IH Hex].
  - repeat split; contradiction.
  - exact (exec_references_ok _ _ _ _ Hex IH).
Qed.

Lemma reachable_references_ok_witness : references_ok db_reviewed.
Proof.
  apply reachable_references_ok. apply reachable_run. apply reachable_run.
  constructor.
Defined.

(** ** Keys under replacement *)

Section ReplaceById.
Context {A K : Type}.
Variable ident : A -> uuid.
Variable key : A -> K.

Lemma replace_keeps_ids (rid : uuid) (new : A) (l : list A) :
  ident new = rid ->
  map ident (map (fun x => if Nat.eqb (ident x) rid then new else x) l)
  = map ident l.
Proof.
  intros Hnew. rewrite map_map. apply map_ext. intros x.
  destruct (Nat.eqb (ident x) rid) eqn:E; [| reflexivity].
  apply Nat.eqb_eq in E. congruence.
Qed.

Lemma replace_keeps_keys_unique (rid : uuid) (new : A) (l : list A) :
  NoDup (map ident l) ->
  NoDup (map key l) ->
  ~ In (key new) (map key (filter (fun x => negb (Nat.eqb (ident x) rid)) l)) ->
  NoDup (map key (map (fun x => if Nat.eqb (ident x) rid then new else x) l)).
Proof.
  set (g := fun x => if Nat.eqb (ident x) rid then new else x).
  induction l as [| x l IH]; simpl; intros Hids Hkeys Hfree; [constructor |].
  inversion Hids as [| ? ? Hxid Hids']; subst.
  inversion Hkeys as [| ? ? Hxkey Hkeys']; subst.
  destruct (Nat.eqb (ident x) rid) eqn:E.
  - simpl in Hfree. apply Nat.eqb_eq in E.
    assert (Hrest : forall y, In y l -> Nat.eqb (ident y) rid = false).
    { intros y Hy. apply Nat.eqb_neq. intros Ey. apply Hxid.
      rewrite E, <- Ey. apply in_map. exact Hy. }
    assert (Hmap : map g l = l).
    { rewrite <- (map_id l) at 2. apply map_ext_in. intros y Hy.
      unfold g. rewrite (Hrest y Hy). reflexivity. }
    assert (Hwo : filter (fun y => negb (Nat.eqb (ident y) rid)) l = l).
    { apply forallb_filter_id. apply forallb_forall.
      intros y Hy. rewrite (Hrest y Hy). reflexivity. }
    unfold g at 1. rewrite (proj2 (Nat.eqb_eq _ _) E).
    rewrite Hmap. rewrite Hwo in Hfree. constructor; assumption.
  - simpl in Hfree. unfold g at 1. rewrite E.
    constructor.
    + intros Hin. apply in_map_iff in Hin. destruct Hin as [y' [Hy' Hin]].
      apply in_map_iff in Hin. destruct Hin as [y [Hy Hin]]. subst y'.
      unfold g in Hy'. destruct (Nat.eqb (ident y) rid).
      * apply Hfree. left. symmetry. exact Hy'.
      * apply Hxkey. rewrite <- Hy'. apply in_map. exact Hin.
    + apply IH; auto.
Qed.

End ReplaceById.

(** ** Invariants of [bookings], [reviews] and [vehicles] *)

Lemma exec_bookings_pkey (caller : role) (st : statement) (s s' : Db) :
  exec caller st s = Ok s' -> bookings_pkey s -> bookings_pkey s'.
Proof.
  unfold bookings_pkey. intros H Hpk.
  pose proof (exec_shape _ _ _ _ H) as Hs. destruct st.
  - destruct Hs as [e [_ [_ [_ [_ ->]]]]]. auto.
  - destruct Hs as [_ [Hc ->]]. simpl. rewrite map_app. simpl.
    apply NoDup_snoc; [exact Hpk |].
    apply bookings_constraints_Ok in Hc. tauto.
  - destruct Hs as [-> | [old [new' [_ [Hn [_ [_ ->]]]]]]]; [auto |].
    simpl. rewrite (replace_keeps_ids Booking.id); [exact Hpk |].
    subst new'. reflexivity.
  - destruct Hs as [_ [_ Ht]]. apply trigger_frame in Ht.
    destruct Ht as [_ [_ [-> _]]]. auto.
  - destruct Hs as [-> | [old [new' [_ [_ [_ [_ [_ Ht]]]]]]]]; [auto |].
    apply trigger_frame in Ht. destruct Ht as [_ [_ [-> _]]]. auto.
  - destruct Hs as [-> | [old [_ [_ Ht]]]]; [auto |].
    apply trigger_frame in Ht. destruct Ht as [_ [_ [-> _]]]. auto.
  - destruct Hs as [_ [_ ->]]. auto.
  - destruct Hs as [-> | [old [new' [_ [_ [_ [_ [_ ->]]]]]]]]; auto.
  - destruct Hs as [-> | [old [_ [_ ->]]]]; auto.
  - destruct Hs as [-> | [_ ->]]; auto.
Qed.

Lemma reachable_bookings_pkey (s : Db) : reachable s -> bookings_pkey s.
Proof.
  induction 1 as [us | s caller st s' Hr IH Hex].
  - constructor.
  - exact (exec_bookings_pkey _ _ _ _ Hex IH).
Qed.

Lemma string_in_In (x : string) (l : list string) :
  string_in x l = true <-> In x l.
Proof.
  unfold string_in. rewrite existsb_exists. split.
  - intros [y [Hin Hy]]. apply String.eqb_eq in Hy. subst. exact Hin.
  - intros Hin. exists x. split; [exact Hin | apply String.eqb_refl].
Qed.

Lemma reachable_bookings_status (s : Db) :
  reachable s ->
  forall b, In b (bookings s) ->
            In (Booking.status b)
               ["pending"; "confirmed"; "active"; "completed"; "cancelled"].
Proof.
  induction 1 as [us | s caller st s' Hr IH Hex]; intros b Hin; [contradiction |].
  destruct (exec_bookings_rows _ _ _ _ Hex b Hin) as [Hold | [others Hc]];
    [apply IH; exact Hold |].
  apply bookings_constraints_Ok in Hc.
  destruct Hc as [_ [_ [_ [Hst _]]]].
  unfold bookings_status_check in Hst. apply string_in_In in Hst. exact Hst.
Qed.

(** X2.  The domain of [bookings]: in every reachable state booking ids are
    unique, [status] and [payment_status] hold one of the values their CHECK
    lists, the dates are in order, and a fuel level, when recorded, lies in
    0..100. *)
Theorem reachable_bookings_domain (s : Db) :
  reachable s ->
  bookings_pkey s
  /\ forall b, In b (bookings s) ->
       In (Booking.status b)
          ["pending"; "confirmed"; "active"; "completed"; "cancelled"]
       /\ In (Booking.payment_status b) ["pending"; "completed"; "failed"; "refunded"]
       /\ (Booking.start_date b < Booking.end_date b)%Z
       /\ (forall x, Booking.fuel_level_pickup b = Some x -> (0 <= x <= 100)%Z)
       /\ (forall x, Booking.fuel_level_dropoff b = Some x -> (0 <= x <= 100)%Z).
Proof.
  intros Hr. split; [apply reachable_bookings_pkey; exact Hr |].
  induction Hr as [us | s caller st s' Hr IH Hex]; intros b Hin; [contradiction |].
  destruct (exec_bookings_rows _ _ _ _ Hex b Hin) as [Hold | [others Hc]];
    [apply IH; exact Hold |].
  apply bookings_constraints_Ok in Hc.
  destruct Hc as [Hfd [Hfp [Hpay [Hst [Hdates _]]]]].
  unfold bookings_status_check in Hst. unfold bookings_payment_status_check in Hpay.
  apply string_in_In in Hst, Hpay. unfold valid_dates in Hdates.
  apply Z.ltb_lt in Hdates.
  repeat split; try assumption.
  - rewrite H in Hfp. simpl in Hfp. apply andb_true_iff in Hfp. lia.
  - rewrite H in Hfp. simpl in Hfp. apply andb_true_iff in Hfp. lia.
  - rewrite H in Hfd. simpl in Hfd. apply andb_true_iff in Hfd. lia.
  - rewrite H in Hfd. simpl in Hfd. apply andb_true_iff in Hfd. lia.
Qed.

Lemma exec_reviews_unique (caller : role) (st : statement) (s s' : Db) :
  exec caller st s = Ok s' ->
  reviews_pkey s /\ reviews_unique s -> reviews_unique s'.
Proof.
  unfold reviews_pkey, reviews_unique. intros H [Hids Hkeys].
  pose proof (exec_shape _ _ _ _ H) as Hs. destruct st.
  - destruct Hs as [e [_ [_ [_ [_ ->]]]]]. auto.
  - destruct Hs as [_ [_ ->]]. auto.
  - destruct Hs as [-> | [old [new' [_ [_ [_ [_ ->]]]]]]]; auto.
  - destruct Hs as [_ [Hc Ht]]. apply trigger_frame in Ht.
    destruct Ht as [_ [_ [_ [_ ->]]]]. simpl. rewrite map_app. simpl.
    apply NoDup_snoc; [exact Hkeys |].
    apply reviews_constraints_full in Hc. tauto.
  - destruct Hs as [-> | [old [new' [_ [Hn [_ [_ [Hc Ht]]]]]]]]; [auto |].
    apply trigger_frame in Ht. destruct Ht as [_ [_ [_ [_ ->]]]]. simpl.
    apply (replace_keeps_keys_unique Review.id review_key); try assumption.
    apply reviews_constraints_full in Hc. unfold without_review in Hc. tauto.
  - destruct Hs as [-> | [old [_ [_ Ht]]]]; [auto |].
    apply trigger_frame in Ht. destruct Ht as [_ [_ [_ [_ ->]]]]. simpl.
    unfold without_review. apply NoDup_map_filter. exact Hkeys.
  - destruct Hs as [_ [_ ->]]. auto.
  - destruct Hs as [-> | [old [new' [_ [_ [_ [_ [_ ->]]]]]]]]; auto.
  - destruct Hs as [-> | [old [_ [_ ->]]]]; auto.
  - destruct Hs as [-> | [_ ->]]; auto.
Qed.

(** X3.  The domain of [reviews]: in every reachable state review ids are unique,
    no two reviews share their (user_id, booking_id), and every rating lies
    in 1..5. *)
Theorem reachable_reviews_domain (s : Db) :
  reachable s ->
  reviews_pkey s
  /\ reviews_unique s
  /\ forall r, In r (reviews s) -> (1 <= Review.rating r <= 5)%Z.
Proof.
  intros Hr.
  assert (Hinv : reviews_inv s /\ reviews_unique s).
  { induction Hr as [us | s caller st s' Hr IH Hex].
    - split; [split; [constructor | intros r []] | constructor].
    - destruct IH as [Hinv Hu]. split.
      + exact (exec_reviews_inv _ _ _ _ Hex Hinv).
      + exact (exec_reviews_unique _ _ _ _ Hex (conj (proj1 Hinv) Hu)). }
  destruct Hinv as [[Hpk Hrat] Hu]. split; [exact Hpk | split; [exact Hu |]].
  intros r Hin. specialize (Hrat r Hin). unfold reviews_rating_check in Hrat.
  apply andb_true_iff in Hrat. destruct Hrat as [H1 H5].
  apply Z.leb_le in H1, H5. lia.
Qed.

Lemma reachable_reviews_domain_witness :
  reviews_pkey db_three_reviews
  /\ reviews_unique db_three_reviews
  /\ forall r, In r (reviews db_three_reviews) -> (1 <= Review.rating r <= 5)%Z.
Proof.
  apply reachable_reviews_domain. apply reachable_run. constructor.
Defined.

Lemma reachable_bookings_domain_witness :
  bookings_pkey db_paid
  /\ forall b, In b (bookings db_paid) ->
       In (Booking.status b)
          ["pending"; "confirmed"; "active"; "completed"; "cancelled"]
       /\ In (Booking.payment_status b) ["pending"; "completed"; "failed"; "refunded"]
       /\ (Booking.start_date b < Booking.end_date b)%Z
       /\ (forall x, Booking.fuel_level_pickup b = Some x -> (0 <= x <= 100)%Z)
       /\ (forall x, Booking.fuel_level_dropoff b = Some x -> (0 <= x <= 100)%Z).
Proof.
  apply reachable_bookings_domain. apply reachable_run. apply reachable_run.
  constructor.
Defined.

Lemma exec_vehicles_ok (caller : role) (st : statement) (s s' : Db) :
  exec caller st s = Ok s' ->
  (forall v, In v (vehicles s) ->
             vehicles_rating_check (Vehicle.rating v) = true
             /\ (0 <= Vehicle.total_reviews v)%Z) ->
  forall v, In v (vehicles s') ->
            vehicles_rating_check (Vehicle.rating v) = true
            /\ (0 <= Vehicle.total_reviews v)%Z.
Proof.
  intros H Hok.
  assert (Htrig : forall NEW OLD s1,
            vehicles s1 = vehicles s ->
            update_vehicle_rating NEW OLD s1 = Ok s' ->
            forall v, In v (vehicles s') ->
                      vehicles_rating_check (Vehicle.rating v) = true
                      /\ (0 <= Vehicle.total_reviews v)%Z).
  { intros NEW OLD s1 Hv Ht v Hin. apply trigger_shape in Ht.
    destruct Ht as [g [-> Hg]]. simpl in Hin.
    apply in_map_iff in Hin. destruct Hin as [x [<- Hin]].
    destruct (Hg x Hin) as [-> | [_ [_ [_ [Hr Ht]]]]]; [| auto].
    apply Hok. rewrite <- Hv. exact Hin. }
  pose proof (exec_shape _ _ _ _ H) as Hs. destruct st.
  - destruct Hs as [e [_ [_ [_ [_ ->]]]]]. exact Hok.
  - destruct Hs as [_ [_ ->]]. exact Hok.
  - destruct Hs as [-> | [old [new' [_ [_ [_ [_ ->]]]]]]]; exact Hok.
  - destruct Hs as [_ [_ Ht]]. eapply Htrig; [| exact Ht]; reflexivity.
  - destruct Hs as [-> | [old [new' [_ [_ [_ [_ [_ Ht]]]]]]]]; [exact Hok |].
    eapply Htrig; [| exact Ht]; reflexivity.
  - destruct Hs as [-> | [old [_ [_ Ht]]]]; [exact Hok |].
    eapply Htrig; [| exact Ht]; reflexivity.
  - destruct Hs as [_ [_ ->]]. exact Hok.
  - destruct Hs as [-> | [old [new' [_ [_ [_ [_ [_ ->]]]]]]]]; exact Hok.
  - destruct Hs as [-> | [old [_ [_ ->]]]]; exact Hok.
  - destruct Hs as [-> | [_ ->]]; [exact Hok |].
    simpl. intros v Hin. apply in_map_iff in Hin. destruct Hin as [x [<- Hin]].
    destruct (Nat.eqb (Vehicle.id x) vid); simpl; apply Hok; exact Hin.
Qed.

(** X4.  The CHECK on [vehicles.rating] as an invariant: in every reachable state
    each vehicle's rating lies between 0 and 5 and its review count is not
    negative, whether the values are the seeded ones or come from the
    trigger. *)
Theorem reachable_vehicle_rating_range (s : Db) :
  reachable s ->
  forall v, In v (vehicles s) ->
            (0 <= Vehicle.rating v)%Q /\ (Vehicle.rating v <= 5)%Q
            /\ (0 <= Vehicle.total_reviews v)%Z.
Proof.
  intros Hr.
  assert (Hok : forall v, In v (vehicles s) ->
                  vehicles_rating_check (Vehicle.rating v) = true
                  /\ (0 <= Vehicle.total_reviews v)%Z).
  { induction Hr as [us | s caller st s' Hr IH Hex].
    - intros v Hin. simpl in Hin.
      repeat (destruct Hin as [<- | Hin]; [split; [reflexivity | simpl; lia] |]).
      contradiction.
    - exact (exec_vehicles_ok _ _ _ _ Hex IH). }
  intros v Hin. destruct (Hok v Hin) as [Hc Ht].
  unfold vehicles_rating_check in Hc. apply andb_true_iff in Hc.
  destruct Hc as [H0 H5]. apply Qle_bool_iff in H0, H5. auto.
Qed.

Lemma reachable_vehicle_rating_range_witness :
  reachable db_three_reviews
  /\ forall v, In v (vehicles db_three_reviews) ->
               (0 <= Vehicle.rating v)%Q /\ (Vehicle.rating v <= 5)%Q
               /\ (0 <= Vehicle.total_reviews v)%Z.
Proof.
  assert (Hr : reachable db_three_reviews) by (apply reachable_run; constructor).
  split; [exact Hr |].
  exact (reachable_vehicle_rating_range db_three_reviews Hr).
Defined.



(** ** Row-level isolation *)

Lemma find_by_id_unique {A : Type} (ident : A -> uuid) (l : list A) (rid : uuid)
    (old : A) :
  NoDup (map ident l) ->
  find (fun x => Nat.eqb (ident x) rid) l = Some old ->
  forall x, In x l -> ident x = rid -> x = old.
Proof.
  induction l as [| a l IH]; simpl; intros Hnd Hf x Hin Hid; [contradiction |].
  inversion Hnd as [| ? ? Hnotin Hnd']; subst.
  destruct (Nat.eqb (ident a) (ident x)) eqn:Ha.
  - injection Hf as <-. destruct Hin as [-> | Hin]; [reflexivity |].
    apply Nat.eqb_eq in Ha. exfalso. apply Hnotin. rewrite Ha.
    apply in_map. exact Hin.
  - destruct Hin as [-> | Hin].
    + rewrite Nat.eqb_refl in Ha. discriminate.
    + apply IH; auto.
Qed.

(** Rows that differ from [old] and from [new] are untouched by replacing or
    removing the row with id [rid]. *)
Lemma replace_others {A : Type} (ident : A -> uuid) (l : list A) (rid : uuid)
    (old new x : A) :
  NoDup (map ident l) ->
  find (fun y => Nat.eqb (ident y) rid) l = Some old ->
  x <> old -> x <> new ->
  (In x l <-> In x (map (fun y => if Nat.eqb (ident y) rid then new else y) l)).
Proof.
  intros Hnd Hf Hold Hnew. split; intros Hin.
  - apply in_map_iff. exists x. split; [| exact Hin].
    destruct (Nat.eqb (ident x) rid) eqn:E; [| reflexivity].
    apply Nat.eqb_eq in E. exfalso. apply Hold.
    exact (find_by_id_unique ident l rid old Hnd Hf x Hin E).
  - apply in_map_iff in Hin. destruct Hin as [y [Hy Hin]].
    destruct (Nat.eqb (ident y) rid); [congruence | subst; exact Hin].
Qed.

Lemma remove_others {A : Type} (ident : A -> uuid) (l : list A) (rid : uuid)
    (old x : A) :
  NoDup (map ident l) ->
  find (fun y => Nat.eqb (ident y) rid) l = Some old ->
  x <> old ->
  (In x l <-> In x (filter (fun y => negb (Nat.eqb (ident y) rid)) l)).
Proof.
  intros Hnd Hf Hold. rewrite filter_In. split; [| tauto].
  intros Hin. split; [exact Hin |].
  apply negb_true_iff. apply Nat.eqb_neq. intros E. apply Hold.
  exact (find_by_id_unique ident l rid old Hnd Hf x Hin E).
Qed.

Lemma in_snoc_other {A : Type} (l : list A) (new x : A) :
  x <> new -> (In x l <-> In x (l ++ [new])).
Proof.
  intros Hne. rewrite in_app_iff. simpl. split; [tauto |].
  intros [H | [H | []]]; [exact H | congruence].
Qed.

(** X6.  "Users can manage own favorites": whatever an authenticated caller
    executes, the favorites of every other user stay exactly as they were;
    none is added, changed or removed. *)
Theorem favorites_of_others_untouched (uid : uuid) (st : statement) (s s' : Db)
    (Hpk : favorites_pkey s) :
  exec (authenticated uid) st s = Ok s' ->
  forall f, Favorite.user_id f <> uid ->
            (In f (favorites s) <-> In f (favorites s')).
Proof.
  intros H f Hf. pose proof (exec_favorites_frame _ _ _ _ H) as Hframe.
  pose proof (exec_shape _ _ _ _ H) as Hs.
  destruct st; try (rewrite Hframe; reflexivity).
  - destruct Hs as [Hpol [_ ->]]. simpl in *.
    apply in_snoc_other. intros ->.
    unfold policy_own_favorite in Hpol. apply Nat.eqb_eq in Hpol. congruence.
  - destruct Hs as [-> | [old [new' [Hfind [Hn [Ho [Hnw [_ ->]]]]]]]]; [reflexivity |].
    simpl in *. unfold policy_own_favorite in Ho, Hnw.
    apply Nat.eqb_eq in Ho, Hnw.
    apply (replace_others Favorite.id _ _ old new' f Hpk Hfind); congruence.
  - destruct Hs as [-> | [old [Hfind [Ho ->]]]]; [reflexivity |].
    simpl in *. unfold policy_own_favorite in Ho. apply Nat.eqb_eq in Ho.
    apply (remove_others Favorite.id _ _ old f Hpk Hfind). congruence.
Qed.

Lemma favorites_of_others_untouched_witness :
  favorites_pkey db_favorite
  /\ (forall f, Favorite.user_id f <> 11 ->
                (In f (favorites db_favorite)
                 <-> In f (favorites (run db_favorite
                                        [(authenticated 11, DeleteFavorite 500)])))).
Proof.
  assert (Hpk : favorites_pkey db_favorite).
  { unfold favorites_pkey. vm_compute. constructor; [intros [] | constructor]. }
  split; [exact Hpk |].
  apply (favorites_of_others_untouched 11 (DeleteFavorite 500) db_favorite _ Hpk).
  vm_compute. reflexivity.
Defined.







(** ** Profiles *)




(** ** The bookings screen, continued *)

Lemma filter_partition_perm {A : Type} (p : A -> bool) (l : list A) :
  Permutation (filter p l ++ filter (fun x => negb (p x)) l) l.
Proof.
  induction l as [| x l IH]; simpl; [constructor |].
  destruct (p x); simpl.
  - apply perm_skip. exact IH.
  - eapply Permutation_trans; [apply Permutation_sym, Permutation_middle |].
    apply perm_skip. exact IH.
Qed.

(** X10.  The two tabs split the list: every fetched booking is shown under exactly
    one of "upcoming" and "past", none is dropped and none is shown twice. *)
Theorem filteredBookings_partition (bookings : list BookingsScreen.Booking)
    (now : timestamptz) :
  Permutation
    (BookingsScreen.filteredBookings BookingsScreen.upcoming bookings now
     ++ BookingsScreen.filteredBookings BookingsScreen.past bookings now)
    bookings
  /\ (List.length (BookingsScreen.filteredBookings BookingsScreen.upcoming bookings now)
      + List.length (BookingsScreen.filteredBookings BookingsScreen.past bookings now)
      = List.length bookings)
  /\ forall b,
       ~ (In b (BookingsScreen.filteredBookings BookingsScreen.upcoming bookings now)
          /\ In b (BookingsScreen.filteredBookings BookingsScreen.past bookings now)).
Proof.
  unfold BookingsScreen.filteredBookings.
  pose proof (filter_partition_perm
                (fun b => BookingsScreen.isUpcoming b now) bookings) as Hp.
  split; [exact Hp | split].
  - rewrite <- length_app. apply Permutation_length. exact Hp.
  - intros b [Hu Hpast]. apply filter_In in Hu, Hpast.
    destruct Hu as [_ Hu]. destruct Hpast as [_ Hpast].
    rewrite Hu in Hpast. discriminate.
Qed.












(** ** The favorites screen *)


Lemma filter_swap {A : Type} (p q : A -> bool) (l : list A) :
  filter p (filter q l) = filter q (filter p l).
Proof.
  induction l as [| x l IH]; simpl; [reflexivity |].
  destruct (p x) eqn:Hp; destruct (q x) eqn:Hq; simpl;
    rewrite ?Hp, ?Hq, IH; reflexivity.
Qed.

Lemma filter_all {A : Type} (p : A -> bool) (l : list A) :
  (forall x, In x l -> p x = true) -> filter p l = l.
Proof.
  intros H. apply forallb_filter_id. apply forallb_forall. exact H.
Qed.

Section OrderByKey.
Context {A : Type}.
Variable key : A -> Z.

End OrderByKey.







(** ** The home screen *)





(** X16.  [checkUser] replaces the home screen by the admin area exactly for the
    configured admin email, never on the strength of the profile flag alone;
    whoever is sent there is a user [getCurrentUser] reports as admin. *)
Theorem checkUser_redirect (getUser : option AuthUser.t) (s : Db) :
  (snd (HomeScreen.checkUser getUser s) = true
   <-> exists user, getUser = Some user /\ AuthUser.email user = Some ADMIN_EMAIL)
  /\ (snd (HomeScreen.checkUser getUser s) = true ->
      exists u, fst (HomeScreen.checkUser getUser s) = Some u
                /\ Auth.is_admin u = true).
Proof.
  unfold HomeScreen.checkUser, Auth.getCurrentUser. cbn [fst snd].
  destruct getUser as [user |].
  2:{ split; [split; [discriminate | intros [u [H _]]; discriminate] | discriminate]. }
  destruct (AuthUser.email user) as [e |] eqn:Ee.
  - destruct (String.eqb e ADMIN_EMAIL) eqn:E; cbn [Auth.email]; rewrite E.
    + apply String.eqb_eq in E. subst e. split.
      * split; [intros _; exists user; auto | reflexivity].
      * intros _. eexists. split; reflexivity.
    + apply String.eqb_neq in E. split; [split |]; try discriminate.
      intros [u [Hu He]]. injection Hu as <-. congruence.
  - cbn [Auth.email]. split; [split |]; try discriminate.
    intros [u [Hu He]]. injection Hu as <-. congruence.
Qed.

(** X17.  [signIn] and [getCurrentUser] agree: when the provider signs in the
    account whose email was typed, the admin flag [signIn] returns is the one
    [getCurrentUser] reports for that account. *)
Theorem signIn_agrees_with_getCurrentUser (email password : string)
    (signInWithPassword : string -> string -> string + option AuthUser.t)
    (user : AuthUser.t) (s : Db) :
  signInWithPassword email password = inr (Some user) ->
  AuthUser.email user = Some email ->
  exists u,
    Auth.getCurrentUser (Some user) s = Some u
    /\ Auth.signIn email password signInWithPassword s
       = inr (Some user, Auth.is_admin u).
Proof.
  intros Hp He. unfold Auth.signIn, Auth.getCurrentUser. rewrite Hp, He.
  destruct (String.eqb email ADMIN_EMAIL); eexists; split; reflexivity.
Qed.

Lemma signIn_agrees_with_getCurrentUser_witness :
  exists u,
    Auth.getCurrentUser (Some root) db_paid = Some u
    /\ Auth.signIn ADMIN_EMAIL "secret" (fun _ _ => inr (Some root)) db_paid
       = inr (Some root, Auth.is_admin u).
Proof.
  apply (signIn_agrees_with_getCurrentUser ADMIN_EMAIL "secret"
           (fun _ _ => inr (Some root)) root db_paid); reflexivity.
Defined.

Lemma js_or_string_coalesce (meta : option string) :
  js_or_string (Some (COALESCE meta "")) meta = meta.
Proof.
  destruct meta as [x |]; simpl; [| reflexivity].
  destruct (String.eqb x "") eqn:E; [| reflexivity].
  apply String.eqb_eq in E. subst. reflexivity.
Qed.

(** X18.  Sign-up and back: once [sign_up] has stored an account and the trigger
    its profile, [getCurrentUser] returns the account's id and email, the
    full name and avatar given at sign-up, and the admin flag exactly for the
    configured admin email. *)
Theorem sign_up_then_getCurrentUser (u : AuthUser.t) (s s' : Db) :
  sign_up u s = Ok s' ->
  Auth.getCurrentUser (Some u) s'
  = Some (Auth.mkUser (AuthUser.id u) (AuthUser.email u)
            (AuthUser.meta_full_name u) (AuthUser.meta_avatar_url u)
            (match AuthUser.email u with
             | Some e => String.eqb e ADMIN_EMAIL
             | None => false
             end)).
Proof.
  intros H.
  pose proof (exec_shape service_role (SignUp u) s s' H) as Hs. simpl in Hs.
  destruct Hs as [e [He [_ [Hfresh [_ ->]]]]].
  unfold Auth.getCurrentUser. rewrite He.
  destruct (String.eqb e ADMIN_EMAIL) eqn:E; [reflexivity |].
  assert (Hprof : profile_by_id (AuthUser.id u)
                    (set_profiles
                       (profiles s ++
                        [Profile.mk (AuthUser.id u) e
                           (Some (COALESCE (AuthUser.meta_full_name u) "")) None
                           (Some false)])
                       (set_users (users s ++ [u]) s))
                  = Some (Profile.mk (AuthUser.id u) e
                            (Some (COALESCE (AuthUser.meta_full_name u) "")) None
                            (Some false))).
  { unfold profile_by_id, select_profiles.
    rewrite filter_filter_absorb.
    2:{ intros x _ Hx. rewrite Nat.eqb_sym, Hx. reflexivity. }
    cbn [profiles set_profiles set_users].
    rewrite filter_app. cbn [filter Profile.id]. rewrite Nat.eqb_refl.
    assert (Hnone : filter (fun p => Nat.eqb (Profile.id p) (AuthUser.id u))
                           (profiles s) = []).
    { destruct (filter _ (profiles s)) as [| q l] eqn:F; [reflexivity |].
      assert (Hq : In q (filter (fun p => Nat.eqb (Profile.id p) (AuthUser.id u))
                                (profiles s))) by (rewrite F; left; reflexivity).
      apply filter_In in Hq. destruct Hq as [Hq Hid]. apply Nat.eqb_eq in Hid.
      exfalso. apply Hfresh. rewrite <- Hid. apply in_map. exact Hq. }
    rewrite Hnone. reflexivity. }
  rewrite Hprof. cbn [Profile.full_name Profile.avatar_url Profile.is_admin].
  rewrite js_or_string_coalesce. reflexivity.
Qed.

Lemma sign_up_then_getCurrentUser_witness :
  Auth.getCurrentUser (Some carol) db_carol
  = Some (Auth.mkUser 13 (Some "carol@example.com") (Some "Carol") None false).
Proof.
  apply (sign_up_then_getCurrentUser carol db_paid db_carol).
  vm_compute. reflexivity.
Defined.

(** ** The dashboard's counts *)






(** ** Status badges *)

(** X20.  The badge tells the status: over the bookings of a reachable state, two
    bookings get the same colour, and likewise the same icon, only if their
    statuses are the same; only 'pending' falls to the default of the
    switch. *)
Theorem status_badges_distinct (s : Db) (Hr : reachable s) :
  forall b1 b2, In b1 (bookings s) -> In b2 (bookings s) ->
    (getStatusColor (Booking.status b1) = getStatusColor (Booking.status b2)
     <-> Booking.status b1 = Booking.status b2)
    /\ (getStatusIcon (Booking.status b1) = getStatusIcon (Booking.status b2)
        <-> Booking.status b1 = Booking.status b2)
    /\ (getStatusColor (Booking.status b1) = "#ffc107"
        <-> Booking.status b1 = "pending").
Proof.
  intros b1 b2 H1 H2.
  pose proof (reachable_bookings_status s Hr b1 H1) as Hs1.
  pose proof (reachable_bookings_status s Hr b2 H2) as Hs2.
  simpl in Hs1, Hs2.
  repeat (destruct Hs1 as [<- | Hs1]);
    repeat (destruct Hs2 as [<- | Hs2]);
    try contradiction;
    (split; [| split]); split; intros H; try reflexivity; try discriminate H.
Qed.

Lemma status_badges_distinct_witness :
  reachable db_paid
  /\ forall b1 b2, In b1 (bookings db_paid) -> In b2 (bookings db_paid) ->
       (getStatusColor (Booking.status b1) = getStatusColor (Booking.status b2)
        <-> Booking.status b1 = Booking.status b2)
       /\ (getStatusIcon (Booking.status b1) = getStatusIcon (Booking.status b2)
           <-> Booking.status b1 = Booking.status b2)
       /\ (getStatusColor (Booking.status b1) = "#ffc107"
           <-> Booking.status b1 = "pending").
Proof.
  assert (Hr : reachable db_paid)
    by (apply reachable_run; apply reachable_run; constructor).
  split; [exact Hr |].
  exact (status_badges_distinct db_paid Hr).
Defined.

(** ** The search screen *)

Lemma filter_idem {A : Type} (p : A -> bool) (l : list A) :
  filter p (filter p l) = filter p l.
Proof.
  apply filter_all. intros x Hx. apply filter_In in Hx. tauto.
Qed.

(** X21.  [filterVehicles], whatever the runtime's [toLowerCase] and [trim] do:
    with the type 'All' and a blank query it shows every vehicle; with
    another type it shows only vehicles of that type; it never reorders or
    invents a vehicle; the type filter can be applied after the query filter
    as well as before; and filtering the result again changes nothing. *)
Theorem filterVehicles_properties (toLowerCase trim : string -> string)
    (vehicles : list SearchScreen.Vehicle) (searchQuery selectedType : string) :
  (selectedType = "All" -> trim searchQuery = "" ->
   SearchScreen.filterVehicles toLowerCase trim vehicles searchQuery selectedType
   = vehicles)
  /\ (forall v,
         In v (SearchScreen.filterVehicles toLowerCase trim vehicles searchQuery
                 selectedType) ->
         In v vehicles
         /\ (selectedType = "All" \/ SearchScreen.type v = selectedType))
  /\ (exists keep,
         SearchScreen.filterVehicles toLowerCase trim vehicles searchQuery selectedType
         = filter keep vehicles)
  /\ (selectedType <> "All" ->
      SearchScreen.filterVehicles toLowerCase trim vehicles searchQuery selectedType
      = filter (fun v => String.eqb (SearchScreen.type v) selectedType)
               (SearchScreen.filterVehicles toLowerCase trim vehicles searchQuery "All"))
  /\ SearchScreen.filterVehicles toLowerCase trim
       (SearchScreen.filterVehicles toLowerCase trim vehicles searchQuery selectedType)
       searchQuery selectedType
     = SearchScreen.filterVehicles toLowerCase trim vehicles searchQuery selectedType.
Proof.
  unfold SearchScreen.filterVehicles.
  set (byType := fun vehicle : SearchScreen.Vehicle =>
                   String.eqb (SearchScreen.type vehicle) selectedType).
  set (byQuery := fun vehicle : SearchScreen.Vehicle => _ || _).
  split; [| split; [| split; [| split]]].
  - intros -> Hq. rewrite Hq. reflexivity.
  - intros v Hin.
    destruct (String.eqb selectedType "All") eqn:Et;
      destruct (String.eqb (trim searchQuery) ""); cbn [negb] in Hin;
      repeat (apply filter_In in Hin; destruct Hin as [Hin ?]);
      (split; [exact Hin |]).
    + left. apply String.eqb_eq. exact Et.
    + left. apply String.eqb_eq. exact Et.
    + right. apply String.eqb_eq. assumption.
    + right. apply String.eqb_eq. assumption.
  - destruct (String.eqb selectedType "All");
      destruct (String.eqb (trim searchQuery) ""); cbn [negb].
    + exists (fun _ => true). symmetry. apply filter_all. reflexivity.
    + exists byQuery. reflexivity.
    + exists byType. reflexivity.
    + exists (fun v => byQuery v && byType v).
      rewrite filter_swap. clear. induction vehicles as [| v l IH]; simpl; [reflexivity |].
      destruct (byQuery v); simpl; destruct (byType v); simpl; rewrite ?IH; reflexivity.
  - intros Ht. apply String.eqb_neq in Ht. rewrite Ht.
    change (String.eqb "All" "All") with true. cbn [negb].
    destruct (String.eqb (trim searchQuery) ""); cbn [negb]; [reflexivity |].
    apply filter_swap.
  - destruct (String.eqb selectedType "All");
      destruct (String.eqb (trim searchQuery) ""); cbn [negb].
    + reflexivity.
    + apply filter_idem.
    + apply filter_idem.
    + rewrite (filter_swap byType byQuery). rewrite !filter_idem. reflexivity.
Qed.

Lemma filterVehicles_properties_witness :
  SearchScreen.filterVehicles (fun x => x) (fun x => x)
    [SearchScreen.mkVehicle 1 "Toyota Camry 2024" "Sedan" "Toyota" "Camry" "Downtown";
     SearchScreen.mkVehicle 2 "Honda CR-V 2023" "SUV" "Honda" "CR-V" "Airport"]
    "" "All"
  = [SearchScreen.mkVehicle 1 "Toyota Camry 2024" "Sedan" "Toyota" "Camry" "Downtown";
     SearchScreen.mkVehicle 2 "Honda CR-V 2023" "SUV" "Honda" "CR-V" "Airport"].
Proof.
  apply (proj1 (filterVehicles_properties (fun x => x) (fun x => x) _ "" "All"));
    reflexivity.
Defined.

(** ** Lists with a default entry *)

Section DefaultEntry.
Context {A : Type}.
Variable ident : A -> string.

Lemma filter_by_string_key_one (k : string) (l : list A) :
  NoDup (map ident l) -> In k (map ident l) ->
  List.length (filter (fun x => String.eqb (ident x) k) l) = 1.
Proof.
  induction l as [| a l IH]; simpl; intros Hnd Hin; [contradiction |].
  inversion Hnd as [| ? ? Hnotin Hnd']; subst.
  destruct (String.eqb (ident a) k) eqn:E.
  - apply String.eqb_eq in E. simpl. f_equal.
    rewrite (proj2 (length_zero_iff_nil _)); [reflexivity |].
    destruct (filter _ l) as [| y l'] eqn:F; [reflexivity |].
    assert (Hy : In y (filter (fun x => String.eqb (ident x) k) l))
      by (rewrite F; left; reflexivity).
    apply filter_In in Hy. destruct Hy as [Hy Hk]. apply String.eqb_eq in Hk.
    exfalso. apply Hnotin. rewrite E, <- Hk. apply in_map. exact Hy.
  - apply String.eqb_neq in E. destruct Hin as [Hin | Hin]; [contradiction |].
    apply IH; assumption.
Qed.

Lemma filter_by_string_key_le (k : string) (l : list A) :
  NoDup (map ident l) ->
  List.length (filter (fun x => String.eqb (ident x) k) l) <= 1.
Proof.
  intros Hnd.
  destruct (in_dec string_dec k (map ident l)) as [Hin | Hout].
  - rewrite (filter_by_string_key_one k l Hnd Hin). constructor.
  - rewrite (proj2 (length_zero_iff_nil _)); [auto |].
    destruct (filter _ l) as [| y l'] eqn:F; [reflexivity |].
    assert (Hy : In y (filter (fun x => String.eqb (ident x) k) l))
      by (rewrite F; left; reflexivity).
    apply filter_In in Hy. destruct Hy as [Hy Hk]. apply String.eqb_eq in Hk.
    exfalso. apply Hout. rewrite <- Hk. apply in_map. exact Hy.
Qed.
End DefaultEntry.

Lemma filter_length_filter {A : Type} (p q : A -> bool) (l : list A) :
  List.length (filter p (filter q l)) <= List.length (filter p l).
Proof.
  rewrite filter_swap. apply filter_length_le.
Qed.

(** X22.  Pickup locations: defaults.  [handleSetDefault] marks exactly the
    locations with the given id and alters nothing else; when ids are unique
    and the id is listed, exactly one location is the default afterwards.
    Adding a location never adds a default, and deleting never does either,
    so "at most one default" survives all three; deleting the default
    location leaves the list without a default. *)
Theorem pickup_locations_default (trim : string -> string)
    (locs : list PickupLocations.Location) (id' : string)
    (Hids : NoDup (map PickupLocations.id locs)) :
  (map PickupLocations.id (PickupLocations.handleSetDefault id' locs)
   = map PickupLocations.id locs
   /\ map PickupLocations.name (PickupLocations.handleSetDefault id' locs)
      = map PickupLocations.name locs
   /\ map PickupLocations.address (PickupLocations.handleSetDefault id' locs)
      = map PickupLocations.address locs
   /\ forall l, In l (PickupLocations.handleSetDefault id' locs) ->
                (PickupLocations.isDefault l = true <-> PickupLocations.id l = id'))
  /\ (In id' (map PickupLocations.id locs) ->
      List.length (filter PickupLocations.isDefault
                     (PickupLocations.handleSetDefault id' locs)) = 1)
  /\ List.length (filter PickupLocations.isDefault
                    (PickupLocations.handleSetDefault id' locs)) <= 1
  /\ (forall confirmed,
         List.length (filter PickupLocations.isDefault
                        (PickupLocations.handleDeleteLocation id' confirmed locs))
         <= List.length (filter PickupLocations.isDefault locs))
  /\ ((forall l, In l locs -> PickupLocations.isDefault l = true ->
                 PickupLocations.id l = id') ->
      filter PickupLocations.isDefault
        (PickupLocations.handleDeleteLocation id' true locs) = [])
  /\ (forall now form open,
         filter PickupLocations.isDefault
           (PickupLocations.locations
              (PickupLocations.handleAddLocation trim now
                 (PickupLocations.mkState locs form open)))
         = filter PickupLocations.isDefault locs).
Proof.
  assert (Hdef : filter PickupLocations.isDefault
                   (PickupLocations.handleSetDefault id' locs)
                 = map (fun loc => PickupLocations.mkLocation (PickupLocations.id loc)
                                     (PickupLocations.name loc)
                                     (PickupLocations.address loc) true)
                       (filter (fun loc => String.eqb (PickupLocations.id loc) id')
                               locs)).
  { unfold PickupLocations.handleSetDefault. clear.
    induction locs as [| a l IH]; simpl; [reflexivity |].
    destruct (String.eqb (PickupLocations.id a) id'); simpl; rewrite IH; reflexivity. }
  split; [| split; [| split; [| split; [| split]]]].
  - unfold PickupLocations.handleSetDefault. rewrite !map_map. simpl.
    split; [apply map_ext; reflexivity |].
    split; [apply map_ext; reflexivity |].
    split; [apply map_ext; reflexivity |].
    intros l Hl. apply in_map_iff in Hl. destruct Hl as [x [<- _]]. simpl.
    apply String.eqb_eq.
  - intros Hin. rewrite Hdef, length_map.
    apply (filter_by_string_key_one PickupLocations.id); assumption.
  - rewrite Hdef, length_map.
    apply (filter_by_string_key_le PickupLocations.id). exact Hids.
  - intros [|]; simpl; [apply filter_length_filter | constructor].
  - intros Honly. simpl.
    destruct (filter _ (filter _ locs)) as [| y l'] eqn:F; [reflexivity |].
    assert (Hy : In y (filter PickupLocations.isDefault
                         (filter (fun loc => negb (String.eqb (PickupLocations.id loc) id'))
                                 locs)))
      by (rewrite F; left; reflexivity).
    apply filter_In in Hy. destruct Hy as [Hy Hd].
    apply filter_In in Hy. destruct Hy as [Hy Hne].
    rewrite (Honly y Hy Hd), String.eqb_refl in Hne. discriminate.
  - intros now form open. unfold PickupLocations.handleAddLocation. simpl.
    destruct (String.eqb (trim (fst form)) "" || String.eqb (trim (snd form)) "");
      simpl; [reflexivity |].
    rewrite filter_app. simpl. apply app_nil_r.
Qed.

Lemma pickup_locations_default_witness :
  NoDup (map PickupLocations.id initial_locations)
  /\ List.length (filter PickupLocations.isDefault
                    (PickupLocations.handleSetDefault "2" initial_locations)) = 1
  /\ filter PickupLocations.isDefault
       (PickupLocations.handleDeleteLocation "1" true initial_locations) = [].
Proof.
  assert (Hids : NoDup (map PickupLocations.id initial_locations)).
  { simpl. repeat (constructor; [simpl; intuition discriminate |]). constructor. }
  split; [exact Hids | split].
  - apply (proj1 (proj2 (pickup_locations_default (fun x => x) initial_locations "2"
                           Hids))).
    simpl. auto.
  - apply (proj1 (proj2 (proj2 (proj2 (proj2
             (pickup_locations_default (fun x => x) initial_locations "1" Hids)))))).
    intros l [<- | [<- | []]]; simpl; [reflexivity | discriminate].
Defined.

(** ** Payment methods *)

Lemma substring_0_all (n : nat) (s : string) :
  String.length s <= n -> substring 0 n s = s.
Proof.
  revert n. induction s as [| c s IH]; intros n Hn.
  - destruct n; reflexivity.
  - destruct n as [| n]; simpl in *; [lia |].
    rewrite IH; [reflexivity | lia].
Qed.

Lemma slice_last4_suffix (s : string) :
  exists pre,
    s = (pre ++ PaymentMethods.slice_last4 s)%string
    /\ String.length (PaymentMethods.slice_last4 s) = Nat.min 4 (String.length s).
Proof.
  unfold PaymentMethods.slice_last4.
  induction s as [| c s IH].
  - exists ""%string. split; reflexivity.
  - destruct (Nat.le_gt_cases (String.length (String c s)) 4) as [Hle | Hgt].
    + exists ""%string.
      replace (String.length (String c s) - 4) with 0 by lia.
      rewrite (substring_0_all 4 _ Hle). split; [reflexivity | lia].
    + simpl in Hgt.
      replace (String.length (String c s) - 4) with (S (String.length s - 4))
        by (simpl; lia).
      cbn [substring]. destruct IH as [pre [Hs Hlen]].
      exists (String c pre). split.
      * simpl. f_equal. exact Hs.
      * rewrite Hlen. change (String.length (String c s)) with (S (String.length s)).
        lia.
Qed.

(** X23.  Payment methods: defaults and new cards.  [handleSetDefault] marks
    exactly the methods with the given id and alters nothing else; with
    unique ids and a listed id exactly one method is the default afterwards.
    Deleting never adds a default, and deleting the default method leaves
    none.  [handleAddCard] does nothing while a field is empty; otherwise it
    appends one card that is not the default, named after the last four
    characters of the number, and empties and closes the form. *)
Theorem payment_methods_default (methods : list PaymentMethods.PaymentMethod)
    (id' : string) (Hids : NoDup (map PaymentMethods.id methods)) :
  (map PaymentMethods.id (PaymentMethods.handleSetDefault id' methods)
   = map PaymentMethods.id methods
   /\ map PaymentMethods.name (PaymentMethods.handleSetDefault id' methods)
      = map PaymentMethods.name methods
   /\ forall m, In m (PaymentMethods.handleSetDefault id' methods) ->
                (PaymentMethods.isDefault m = true <-> PaymentMethods.id m = id'))
  /\ (In id' (map PaymentMethods.id methods) ->
      List.length (filter PaymentMethods.isDefault
                     (PaymentMethods.handleSetDefault id' methods)) = 1)
  /\ (forall confirmed,
         List.length (filter PaymentMethods.isDefault
                        (PaymentMethods.handleDeleteMethod id' confirmed methods))
         <= List.length (filter PaymentMethods.isDefault methods))
  /\ ((forall m, In m methods -> PaymentMethods.isDefault m = true ->
                 PaymentMethods.id m = id') ->
      filter PaymentMethods.isDefault
        (PaymentMethods.handleDeleteMethod id' true methods) = [])
  /\ (forall now card open,
         (PaymentMethods.number card = "" \/ PaymentMethods.expiry card = ""
          \/ PaymentMethods.cvv card = "" \/ PaymentMethods.holder card = "" ->
          PaymentMethods.handleAddCard now (PaymentMethods.mkState methods card open)
          = PaymentMethods.mkState methods card open)
         /\ (PaymentMethods.number card <> "" -> PaymentMethods.expiry card <> "" ->
             PaymentMethods.cvv card <> "" -> PaymentMethods.holder card <> "" ->
             exists pre,
               PaymentMethods.handleAddCard now
                 (PaymentMethods.mkState methods card open)
               = PaymentMethods.mkState
                   (methods
                    ++ [PaymentMethods.mkMethod now "card"
                          ("Card ending in "
                           ++ PaymentMethods.slice_last4 (PaymentMethods.number card))
                          ("Expires " ++ PaymentMethods.expiry card) false])
                   (PaymentMethods.mkCard "" "" "" "") false
               /\ PaymentMethods.number card
                  = (pre ++ PaymentMethods.slice_last4 (PaymentMethods.number card))%string
               /\ String.length (PaymentMethods.slice_last4 (PaymentMethods.number card))
                  = Nat.min 4 (String.length (PaymentMethods.number card)))).
Proof.
  assert (Hdef : filter PaymentMethods.isDefault
                   (PaymentMethods.handleSetDefault id' methods)
                 = map (fun m => PaymentMethods.mkMethod (PaymentMethods.id m)
                                   (PaymentMethods.type m) (PaymentMethods.name m)
                                   (PaymentMethods.details m) true)
                       (filter (fun m => String.eqb (PaymentMethods.id m) id') methods)).
  { unfold PaymentMethods.handleSetDefault. clear.
    induction methods as [| a l IH]; simpl; [reflexivity |].
    destruct (String.eqb (PaymentMethods.id a) id'); simpl; rewrite IH; reflexivity. }
  split; [| split; [| split; [| split]]].
  - unfold PaymentMethods.handleSetDefault. rewrite !map_map. simpl.
    split; [apply map_ext; reflexivity |].
    split; [apply map_ext; reflexivity |].
    intros m Hm. apply in_map_iff in Hm. destruct Hm as [x [<- _]]. simpl.
    apply String.eqb_eq.
  - intros Hin. rewrite Hdef, length_map.
    apply (filter_by_string_key_one PaymentMethods.id); assumption.
  - intros [|]; simpl; [apply filter_length_filter | constructor].
  - intros Honly. simpl.
    destruct (filter _ (filter _ methods)) as [| y l'] eqn:F; [reflexivity |].
    assert (Hy : In y (filter PaymentMethods.isDefault
                         (filter (fun m => negb (String.eqb (PaymentMethods.id m) id'))
                                 methods)))
      by (rewrite F; left; reflexivity).
    apply filter_In in Hy. destruct Hy as [Hy Hd].
    apply filter_In in Hy. destruct Hy as [Hy Hne].
    rewrite (Honly y Hy Hd), String.eqb_refl in Hne. discriminate.
  - intros now card open. unfold PaymentMethods.handleAddCard. simpl. split.
    + intros Hblank.
      assert (E : String.eqb (PaymentMethods.number card) ""
                  || String.eqb (PaymentMethods.expiry card) ""
                  || String.eqb (PaymentMethods.cvv card) ""
                  || String.eqb (PaymentMethods.holder card) "" = true).
      { rewrite !orb_true_iff, !String.eqb_eq. tauto. }
      rewrite E. reflexivity.
    + intros Hn He Hc Hh.
      apply String.eqb_neq in Hn, He, Hc, Hh. rewrite Hn, He, Hc, Hh. simpl.
      destruct (slice_last4_suffix (PaymentMethods.number card)) as [pre [Hs Hl]].
      exists pre. split; [reflexivity | split; assumption].
Qed.

Lemma payment_methods_default_witness :
  NoDup (map PaymentMethods.id initial_methods)
  /\ List.length (filter PaymentMethods.isDefault
                    (PaymentMethods.handleSetDefault "2" initial_methods)) = 1
  /\ filter PaymentMethods.isDefault
       (PaymentMethods.handleDeleteMethod "1" true initial_methods) = [].
Proof.
  assert (Hids : NoDup (map PaymentMethods.id initial_methods)).
  { simpl. repeat (constructor; [simpl; intuition discriminate |]). constructor. }
  split; [exact Hids | split].
  - apply (proj1 (proj2 (payment_methods_default initial_methods "2" Hids))).
    simpl. auto.
  - apply (proj1 (proj2 (proj2 (proj2
             (payment_methods_default initial_methods "1" Hids))))).
    intros m [<- | [<- | []]]; simpl; [reflexivity | discriminate].
Defined.

(** ** Toggles *)

(** X24.  The FAQ list is an accordion: after [toggleFAQ] only the tapped question
    can be expanded, so with unique ids at most one is; tapping a question
    that is open closes it and leaves nothing expanded; questions and answers
    are never altered. *)
Theorem toggleFAQ_accordion (id' : string) (faqs : list HelpSupport.FAQ) :
  (forall f, In f (HelpSupport.toggleFAQ id' faqs) ->
             HelpSupport.expanded f = true -> HelpSupport.id f = id')
  /\ (NoDup (map HelpSupport.id faqs) ->
      List.length (filter HelpSupport.expanded (HelpSupport.toggleFAQ id' faqs)) <= 1)
  /\ ((forall f, In f faqs -> HelpSupport.id f = id' ->
                 HelpSupport.expanded f = true) ->
      filter HelpSupport.expanded (HelpSupport.toggleFAQ id' faqs) = [])
  /\ ((forall f, In f faqs -> HelpSupport.id f = id' ->
                 HelpSupport.expanded f = false) ->
      forall f, In f (HelpSupport.toggleFAQ id' faqs) ->
                (HelpSupport.expanded f = true <-> HelpSupport.id f = id'))
  /\ map HelpSupport.id (HelpSupport.toggleFAQ id' faqs) = map HelpSupport.id faqs
  /\ map HelpSupport.question (HelpSupport.toggleFAQ id' faqs)
     = map HelpSupport.question faqs
  /\ map HelpSupport.answer (HelpSupport.toggleFAQ id' faqs)
     = map HelpSupport.answer faqs.
Proof.
  assert (Honly : forall f, In f (HelpSupport.toggleFAQ id' faqs) ->
                            HelpSupport.expanded f = true -> HelpSupport.id f = id').
  { intros f Hin He. unfold HelpSupport.toggleFAQ in Hin.
    apply in_map_iff in Hin. destruct Hin as [x [<- _]].
    destruct (String.eqb (HelpSupport.id x) id') eqn:E; simpl in *.
    - apply String.eqb_eq. exact E.
    - discriminate. }
  assert (Hids : map HelpSupport.id (HelpSupport.toggleFAQ id' faqs)
                 = map HelpSupport.id faqs).
  { unfold HelpSupport.toggleFAQ. rewrite map_map. apply map_ext. intros x.
    destruct (String.eqb (HelpSupport.id x) id'); reflexivity. }
  split; [exact Honly | split; [| split; [| split; [| split; [exact Hids | split]]]]].
  - intros Hnd.
    eapply Nat.le_trans;
      [| apply (filter_by_string_key_le HelpSupport.id id'
                  (HelpSupport.toggleFAQ id' faqs)); rewrite Hids; exact Hnd].
    rewrite <- (filter_all (fun x => String.eqb (HelpSupport.id x) id')
                  (filter HelpSupport.expanded (HelpSupport.toggleFAQ id' faqs))) at 1.
    + rewrite filter_swap. apply filter_length_le.
    + intros f Hf. apply filter_In in Hf. destruct Hf as [Hin He].
      apply String.eqb_eq. exact (Honly f Hin He).
  - intros Hopen.
    destruct (filter _ _) as [| y l'] eqn:F; [reflexivity |].
    assert (Hy : In y (filter HelpSupport.expanded (HelpSupport.toggleFAQ id' faqs)))
      by (rewrite F; left; reflexivity).
    apply filter_In in Hy. destruct Hy as [Hy He].
    unfold HelpSupport.toggleFAQ in Hy. apply in_map_iff in Hy.
    destruct Hy as [x [<- Hx]].
    destruct (String.eqb (HelpSupport.id x) id') eqn:E; simpl in He; [| discriminate].
    apply String.eqb_eq in E. rewrite (Hopen x Hx E) in He. discriminate.
  - intros Hclosed f Hin. split; [apply Honly; exact Hin |].
    intros Hid. unfold HelpSupport.toggleFAQ in Hin. apply in_map_iff in Hin.
    destruct Hin as [x [<- Hx]].
    destruct (String.eqb (HelpSupport.id x) id') eqn:E; simpl in *.
    + apply String.eqb_eq in E. rewrite (Hclosed x Hx E). reflexivity.
    + apply String.eqb_neq in E. contradiction.
  - unfold HelpSupport.toggleFAQ. rewrite map_map. apply map_ext. intros x.
    destruct (String.eqb (HelpSupport.id x) id'); reflexivity.
  - unfold HelpSupport.toggleFAQ. rewrite map_map. apply map_ext. intros x.
    destruct (String.eqb (HelpSupport.id x) id'); reflexivity.
Qed.

Lemma toggleFAQ_accordion_witness :
  filter HelpSupport.expanded
    (HelpSupport.toggleFAQ "1"
       [HelpSupport.mkFAQ "1" "How do I book a vehicle?" "..." true;
        HelpSupport.mkFAQ "2" "What documents do I need?" "..." false]) = [].
Proof.
  apply (proj1 (proj2 (proj2 (toggleFAQ_accordion "1" _)))).
  intros f [<- | [<- | []]]; simpl; [reflexivity | discriminate].
Defined.

(** X25.  The switches.  A notification switch flips only the entry with the given
    id, and flipping it twice restores the list.  On the settings screen
    only entries of type 'toggle' can change: navigation and action entries,
    and entries with another id, are left exactly as they are; flipping a
    toggle twice restores it once it holds a value. *)
Theorem toggleSetting_properties (id' : string) :
  (forall settings,
      Notifications.toggleSetting id' (Notifications.toggleSetting id' settings)
      = settings)
  /\ (forall settings x,
         In x settings -> Notifications.id x <> id' ->
         In x (Notifications.toggleSetting id' settings))
  /\ (forall settings x,
         In x settings ->
         Settings.id x <> id' \/ Settings.type x <> "toggle" ->
         In x (Settings.toggleSetting id' settings))
  /\ (forall settings,
         map Settings.id (Settings.toggleSetting id' settings) = map Settings.id settings
         /\ map Settings.type (Settings.toggleSetting id' settings)
            = map Settings.type settings)
  /\ (forall settings,
         (forall x, In x settings -> Settings.type x = "toggle" ->
                    Settings.value x <> None) ->
         Settings.toggleSetting id' (Settings.toggleSetting id' settings) = settings).
Proof.
  split; [| split; [| split; [| split]]].
  - intros settings. unfold Notifications.toggleSetting. rewrite map_map.
    rewrite <- (map_id settings) at 2. apply map_ext. intros x.
    destruct (String.eqb (Notifications.id x) id') eqn:E; simpl; rewrite E.
    + rewrite negb_involutive. destruct x; reflexivity.
    + reflexivity.
  - intros settings x Hin Hne. unfold Notifications.toggleSetting.
    apply in_map_iff. exists x. split; [| exact Hin].
    apply String.eqb_neq in Hne. rewrite Hne. reflexivity.
  - intros settings x Hin Hne. unfold Settings.toggleSetting.
    apply in_map_iff. exists x. split; [| exact Hin].
    destruct Hne as [Hne | Hne]; apply String.eqb_neq in Hne; rewrite Hne.
    + reflexivity.
    + rewrite andb_false_r. reflexivity.
  - intros settings. unfold Settings.toggleSetting. rewrite !map_map.
    split; apply map_ext; intros x;
      destruct (String.eqb (Settings.id x) id' && String.eqb (Settings.type x) "toggle");
      reflexivity.
  - intros settings Hval. unfold Settings.toggleSetting. rewrite map_map.
    rewrite <- (map_id settings) at 2. apply map_ext_in. intros x Hin.
    destruct (String.eqb (Settings.id x) id' && String.eqb (Settings.type x) "toggle")
      eqn:E; simpl; rewrite E; [| reflexivity].
    apply andb_true_iff in E. destruct E as [_ Et]. apply String.eqb_eq in Et.
    specialize (Hval x Hin Et).
    destruct x as [i t d ty [[|] |] ic]; simpl in *; try reflexivity.
    contradiction.
Qed.

Lemma toggleSetting_properties_witness :
  Settings.toggleSetting "dark_mode"
    (Settings.toggleSetting "dark_mode"
       [Settings.mkSetting "dark_mode" "Dark Mode" (Some "Switch to dark theme")
          "toggle" (Some false) "moon-outline";
        Settings.mkSetting "language" "Language" (Some "English") "navigation" None
          "language-outline"])
  = [Settings.mkSetting "dark_mode" "Dark Mode" (Some "Switch to dark theme")
       "toggle" (Some false) "moon-outline";
     Settings.mkSetting "language" "Language" (Some "English") "navigation" None
       "language-outline"].
Proof.
  apply (proj2 (proj2 (proj2 (proj2 (toggleSetting_properties "dark_mode"))))).
  intros x [<- | [<- | []]]; simpl; intros H; discriminate.
Defined.

(** ** Profiles as the trigger and the policy keep them *)

Lemma exec_profiles (caller : role) (st : statement) (s s' : Db) :
  exec caller st s = Ok s' ->
  profiles s' = profiles s
  \/ exists u e p,
       st = SignUp u /\ AuthUser.email u = Some e
       /\ Profile.id p = AuthUser.id u /\ Profile.email p = e
       /\ ~ In (AuthUser.id u) (map Profile.id (profiles s))
       /\ ~ In e (map Profile.email (profiles s))
       /\ profiles s' = profiles s ++ [p]
       /\ users s' = users s ++ [u].
Proof.
  intros H. pose proof (exec_shape _ _ _ _ H) as Hs. destruct st.
  - destruct Hs as [e [He [_ [Hid [Hem ->]]]]]. right.
    exists u, e. eexists. repeat split; try reflexivity; assumption.
  - destruct Hs as [_ [_ ->]]. auto.
  - destruct Hs as [-> | [old [new' [_ [_ [_ [_ ->]]]]]]]; auto.
  - destruct Hs as [_ [_ Ht]]. apply trigger_frame in Ht. left. tauto.
  - destruct Hs as [-> | [old [new' [_ [_ [_ [_ [_ Ht]]]]]]]]; [auto |].
    apply trigger_frame in Ht. left. tauto.
  - destruct Hs as [-> | [old [_ [_ Ht]]]]; [auto |].
    apply trigger_frame in Ht. left. tauto.
  - destruct Hs as [_ [_ ->]]. auto.
  - destruct Hs as [-> | [old [new' [_ [_ [_ [_ [_ ->]]]]]]]]; auto.
  - destruct Hs as [-> | [old [_ [_ ->]]]]; auto.
  - destruct Hs as [-> | [_ ->]]; auto.
Qed.

(** X26.  One profile per account: in every reachable state profile ids are
    unique, profile emails are unique and every profile belongs to a stored
    account; an UPDATE of a profile that succeeds keeps all three. *)
Theorem reachable_profiles_ok (s : Db) :
  (reachable s -> profiles_ok s)
  /\ (forall caller pid new s',
         profiles_ok s -> update_profile caller pid new s = Ok s' -> profiles_ok s').
Proof.
  split.
  - induction 1 as [us | s caller st s' Hr IH Hex].
    + repeat split; try constructor. intros p [].
    + destruct IH as [Hpk [Hem Hacc]].
      destruct (exec_exists _ _ _ _ Hex) as [Hu _].
      destruct (exec_profiles _ _ _ _ Hex)
        as [Hp | [u [e [p [_ [_ [Hid [Hpe [Hfid [Hfem [Hp Husers]]]]]]]]]]].
      * unfold profiles_ok, profiles_pkey. rewrite Hp.
        split; [exact Hpk | split; [exact Hem |]].
        intros p Hin. apply Hu. apply Hacc. exact Hin.
      * unfold profiles_ok, profiles_pkey. rewrite Hp, !map_app. simpl.
        split; [apply NoDup_snoc; [exact Hpk | rewrite Hid; exact Hfid] |].
        split; [apply NoDup_snoc; [exact Hem | rewrite Hpe; exact Hfem] |].
        intros q Hin. apply in_app_or in Hin. destruct Hin as [Hin | [<- | []]].
        -- apply Hu. apply Hacc. exact Hin.
        -- unfold exists_user. rewrite Husers, existsb_app. simpl.
           rewrite Hid, Nat.eqb_refl. apply orb_true_iff. right. reflexivity.
  - intros caller pid new s' [Hpk [Hem Hacc]] H. unfold update_profile in H.
    destruct (find_profile pid s) as [old |] eqn:Hf;
      [| injection H as <-; repeat split; assumption].
    destruct (negb _); [injection H as <-; repeat split; assumption |].
    step_ok H. step_ok H. injection H as <-.
    unfold profiles_ok, profiles_pkey. cbn [profiles set_profiles].
    rewrite (replace_keeps_ids Profile.id) by reflexivity.
    split; [exact Hpk | split].
    + apply (replace_keeps_keys_unique Profile.id Profile.email); try assumption.
      rewrite negb_true_iff in Hc0. intros Hin.
      apply in_map_iff in Hin. destruct Hin as [q [Hq Hin]].
      assert (E : existsb (fun p => String.eqb (Profile.email p) (Profile.email new))
                          (without_profile pid (profiles s)) = true).
      { apply existsb_exists. exists q. split; [exact Hin |].
        apply String.eqb_eq. exact Hq. }
      simpl in Hc0. congruence.
    + intros q Hin. apply in_map_iff in Hin. destruct Hin as [x [Hx Hin]].
      unfold exists_user. cbn [users set_profiles].
      destruct (Nat.eqb (Profile.id x) pid) eqn:E.
      * subst q. simpl. apply Nat.eqb_eq in E. rewrite <- E.
        apply Hacc. exact Hin.
      * subst q. apply Hacc. exact Hin.
Qed.

Lemma reachable_profiles_ok_witness : profiles_ok db_carol.
Proof.
  apply (proj1 (reachable_profiles_ok db_carol)).
  apply reachable_run. apply reachable_run. apply reachable_run. constructor.
Defined.

(** ** A review moved to another vehicle *)

(** X27.  When an UPDATE points a review at another vehicle, the trigger recomputes
    the vehicle the review now names and only that one: the row of the
    vehicle it named before is stored exactly as it was, while that vehicle
    has lost the review. *)
Theorem moved_review_old_vehicle_kept (caller : role) (rid : uuid)
    (new old : Review.t) (s s' : Db) :
  find_review rid s = Some old ->
  reviews_using caller old = true ->
  Review.vehicle_id new <> Review.vehicle_id old ->
  update_review caller rid new s = Ok s' ->
  (forall v, Vehicle.id v = Review.vehicle_id old ->
             (In v (vehicles s) <-> In v (vehicles s')))
  /\ reviews_of (Review.vehicle_id old) s'
     = filter (fun r => negb (Nat.eqb (Review.id r) rid))
              (reviews_of (Review.vehicle_id old) s)
  /\ List.length (reviews_of (Review.vehicle_id old) s')
     < List.length (reviews_of (Review.vehicle_id old) s).
Proof.
  intros Hf Hu Hmove H.
  unfold update_review in H. rewrite Hf, Hu in H. cbn [negb] in H.
  step_ok H. step_ok H.
  pose proof (trigger_frame _ _ _ _ H) as [_ [_ [_ [_ Hrev]]]].
  assert (Hkept : forall v, Vehicle.id v = Review.vehicle_id old ->
                            (In v (vehicles s) <-> In v (vehicles s'))).
  { unfold update_vehicle_rating in H. cbn [option_map COALESCE2 Review.vehicle_id] in H.
    destruct (_ && _); [discriminate |]. injection H as <-.
    cbn [vehicles set_vehicles set_reviews].
    intros v Hv. rewrite in_map_iff. split.
    - intros Hin. exists v. split; [| exact Hin].
      destruct (Nat.eqb (Vehicle.id v) (Review.vehicle_id new)) eqn:E; [| reflexivity].
      apply Nat.eqb_eq in E. congruence.
    - intros [x [Hx Hin]].
      destruct (Nat.eqb (Vehicle.id x) (Review.vehicle_id new)) eqn:E.
      + apply Nat.eqb_eq in E. subst v. simpl in Hv. congruence.
      + subst v. exact Hin. }
  assert (Hrevs : reviews_of (Review.vehicle_id old) s'
                  = filter (fun r => negb (Nat.eqb (Review.id r) rid))
                           (reviews_of (Review.vehicle_id old) s)).
  { unfold reviews_of. rewrite Hrev. cbn [reviews set_reviews].
    rewrite (filter_swap (fun r => negb (Nat.eqb (Review.id r) rid))).
    assert (En : Nat.eqb (Review.vehicle_id new) (Review.vehicle_id old) = false)
      by (apply Nat.eqb_neq; exact Hmove).
    clear -En. induction (reviews s) as [| x l IH]; simpl; [reflexivity |].
    destruct (Nat.eqb (Review.id x) rid); simpl.
    - rewrite En. exact IH.
    - destruct (Nat.eqb (Review.vehicle_id x) (Review.vehicle_id old));
        rewrite IH; reflexivity. }
  split; [| split; [exact Hrevs |]].
  - exact Hkept.
  - rewrite Hrevs.
    assert (Hin : In old (reviews_of (Review.vehicle_id old) s)).
    { unfold reviews_of. apply filter_In. unfold find_review in Hf.
      apply find_some in Hf. split; [tauto | apply Nat.eqb_refl]. }
    assert (Hid : Review.id old = rid).
    { unfold find_review in Hf. apply find_some in Hf.
      apply Nat.eqb_eq. tauto. }
    clear -Hin Hid. induction (reviews_of (Review.vehicle_id old) s) as [| x l IH];
      simpl in *; [contradiction |].
    destruct Hin as [-> | Hin].
    + rewrite Hid, Nat.eqb_refl. simpl.
      pose proof (filter_length_le (fun r => negb (Nat.eqb (Review.id r) rid)) l). lia.
    + specialize (IH Hin).
      destruct (negb (Nat.eqb (Review.id x) rid)); simpl; lia.
Qed.

Lemma moved_review_old_vehicle_kept_witness :
  (forall v, Vehicle.id v = 1 -> (In v (vehicles db_reviewed) <-> In v (vehicles db_moved)))
  /\ reviews_of 1 db_moved
     = filter (fun r => negb (Nat.eqb (Review.id r) 1000)) (reviews_of 1 db_reviewed)
  /\ List.length (reviews_of 1 db_moved) < List.length (reviews_of 1 db_reviewed).
Proof.
  apply (moved_review_old_vehicle_kept (authenticated 10) 1000
           (Review.mk 1000 10 2 100 4%Z None 300%Z) camry_review db_reviewed db_moved).
  - reflexivity.
  - reflexivity.
  - simpl. lia.
  - reflexivity.
Defined.
